(** * iLO Redfish configuration modules: a shallow embedding

    Two Ansible modules are embedded here:

    - [plugins/modules/set_service_bios_attributes.py], module
      [SetServiceBiosAttributes] below;
    - [plugins/modules/ilo_redfish_config.py], module [IloRedfishConfig]
      below.

    Python dictionaries are association lists in insertion order, the
    Redfish client and the iLO utility object are state-passing functions
    over an abstract controller state, and [module.exit_json],
    [module.fail_json] and Python exceptions are the three ways in which a
    run stops early. *)

From Stdlib Require Import String List ZArith Bool Lia.
Import ListNotations.
Local Open Scope string_scope.

(** ** Python values, dictionaries and JSON documents *)

Module Py.

(** Scalars that an attribute can hold.  Floating point numbers are left
    out. *)
Inductive value :=
| VNone
| VBool (b : bool)
| VInt (n : Z)
| VStr (s : string).

Definition int_of_bool (b : bool) : Z := if b then 1%Z else 0%Z.

(** Python's [==] on scalars: [bool] is a subclass of [int], so
    [True == 1] and [False == 0]. *)
Definition py_eq (a b : value) : bool :=
  match a, b with
  | VNone, VNone => true
  | VBool x, VBool y => Bool.eqb x y
  | VInt x, VInt y => Z.eqb x y
  | VBool x, VInt y => Z.eqb (int_of_bool x) y
  | VInt x, VBool y => Z.eqb x (int_of_bool y)
  | VStr x, VStr y => String.eqb x y
  | _, _ => false
  end.

(** A [dict] with string keys: the items in insertion order.  A
    well-formed dictionary has no repeated key ([wf]). *)
Definition dict (V : Type) := list (string * V).

Section Dict.
Context {V : Type}.

Definition keys (d : dict V) : list string := map fst d.

Definition wf (d : dict V) : Prop := NoDup (keys d).

(** [d.get(k)] *)
Fixpoint get (k : string) (d : dict V) : option V :=
  match d with
  | [] => None
  | (k', v) :: d' => if String.eqb k k' then Some v else get k d'
  end.

(** [k in d] *)
Definition contains (k : string) (d : dict V) : bool :=
  match get k d with Some _ => true | None => false end.

(** [d[k] = v], which is also [d.update({k: v})]: an existing key keeps
    its place, a new key goes last. *)
Fixpoint set (k : string) (v : V) (d : dict V) : dict V :=
  match d with
  | [] => [(k, v)]
  | (k', v') :: d' =>
      if String.eqb k k' then (k', v) :: d' else (k', v') :: set k v d'
  end.

(** [del d[k]]; [None] stands for the [KeyError] of an absent key. *)
Fixpoint del (k : string) (d : dict V) : option (dict V) :=
  match d with
  | [] => None
  | (k', v') :: d' =>
      if String.eqb k k' then Some d'
      else match del k d' with
           | Some r => Some ((k', v') :: r)
           | None => None
           end
  end.

(** [wf] as a test. *)
Fixpoint wfb (d : dict V) : bool :=
  match d with
  | [] => true
  | (k, _) :: d' => negb (existsb (String.eqb k) (keys d')) && wfb d'
  end.

(** Truth value of a dictionary: empty is false. *)
Definition truthy (d : dict V) : bool :=
  match d with [] => false | _ :: _ => true end.
End Dict.

(** Parsed JSON documents: scalars and objects (arrays are left out). *)
#[warnings="-register-all"]
Inductive json :=
| JVal (v : value)
| JObj (fields : dict json).

Inductive pyerror :=
| KeyError (key : string)
| TypeError
| JSONDecodeError.

(** [k in j] for a parsed document: key membership in an object, substring
    test in a string, [TypeError] for the other scalars. *)
Definition json_in (k : string) (j : json) : pyerror + bool :=
  match j with
  | JObj fields => inr (contains k fields)
  | JVal (VStr s) =>
      inr (match String.index 0 k s with Some _ => true | None => false end)
  | JVal _ => inl TypeError
  end.

(** [j[k]] for a parsed document and a string key. *)
Definition json_getitem (j : json) (k : string) : pyerror + json :=
  match j with
  | JObj fields =>
      match get k fields with
      | Some x => inr x
      | None => inl (KeyError k)
      end
  | JVal _ => inl TypeError
  end.

(** [j == v] where [v] is a scalar: an object never equals a scalar. *)
Definition json_eq_value (j : json) (v : value) : bool :=
  match j with
  | JVal c => py_eq c v
  | JObj _ => false
  end.

(** [j + suffix] where [suffix] is a string: only defined on strings. *)
Definition json_add_str (j : json) (suffix : string) : pyerror + string :=
  match j with
  | JVal (VStr s) => inr (s ++ suffix)
  | _ => inl TypeError
  end.

End Py.

(** ** [set_service_bios_attributes.py] *)

Module SetServiceBiosAttributes.
Import Py.

Definition base_uri : string := "/redfish/v1/".
Definition system_uri : string := "systems/1/".

(** An HTTP response of the Redfish client: [response.status] and
    [response.text]. *)
Record response := { status : Z; text : string }.

(** The body of the PATCH request, [{"Attributes": ...}]. *)
Record patch_body := { Attributes : dict value }.

(** The arguments of the format string of each message of the module. *)
Inductive message :=
| MissingLibrary (name : string)
    (* missing_required_lib(name) *)
| RequestFailed (method uri : string) (st : Z) (resp : string)
    (* "%s on %s Failed, Status: %s, Response: %s" *)
| BiosKeyMissing (uri : string) (server_details : json)
    (* "Getting BIOS URI Failed, Key 'Bios' not found in %s response: %s" *)
| IncorrectAttributes (attrs_bad : dict value)
    (* "Incorrect attributes: %s" *)
| ApplyFailed (st : Z) (resp : string) (uri : string)
    (* "Applying Service BIOS attributes Failed, status: %s, response: %s, API: %s" *)
| Text (s : string).

(** How a run stops before the end of the function it is in:
    [module.exit_json] and [module.fail_json] raise [SystemExit], and a
    Python exception propagates; nothing in the module catches either. *)
Inductive stop :=
| ExitJson (changed : bool) (msg : message)
| FailJson (msg : message)
| Raise (e : pyerror).

Inductive res (A : Type) :=
| Ok (a : A)
| Stop (s : stop).
Arguments Ok {A} a.
Arguments Stop {A} s.

(** What the module does to the Redfish client, in order. *)
Inductive event :=
| Login
| Get (uri : string)
| Patch (uri : string) (body : patch_body)
| Logout.

Definition is_patch (e : event) : bool :=
  match e with Patch _ _ => true | _ => false end.

Definition is_logout (e : event) : bool :=
  match e with Logout => true | _ => false end.

(** A stretch of the trace without a write. *)
Definition reads_only (l : list event) : Prop :=
  Forall (fun e => is_patch e = false) l.

(** *** The attribute validator *)

(** The local variables [attrs_to_patch] and [attrs_bad]. *)
Definition scan_state : Type := dict value * dict value.

(** One iteration of the [for] loop of [validate_input_attributes]. *)
Definition scan_step (service_bios : json) (attributes : dict value)
    (acc : scan_state) (item : string * value) : pyerror + scan_state :=
  let '(attrs_to_patch, attrs_bad) := acc in
  let '(attr_name, attr_value) := item in
  match json_getitem service_bios "Attributes" with
  | inl e => inl e
  | inr current =>
      match json_in attr_name current with
      | inl e => inl e
      | inr false =>
          let attrs_bad := set attr_name attr_value attrs_bad in
          match del attr_name attrs_to_patch with
          | None => inl (KeyError attr_name)
          | Some attrs_to_patch => inr (attrs_to_patch, attrs_bad)
          end
      | inr true =>
          match json_getitem current attr_name with
          | inl e => inl e
          | inr cur_value =>
              match get attr_name attributes with
              | None => inl (KeyError attr_name)
              | Some wanted =>
                  if json_eq_value cur_value wanted then
                    match del attr_name attrs_to_patch with
                    | None => inl (KeyError attr_name)
                    | Some attrs_to_patch => inr (attrs_to_patch, attrs_bad)
                    end
                  else inr (attrs_to_patch, attrs_bad)
              end
          end
      end
  end.

(** The loop over [attributes.items()], from the items still to visit. *)
Fixpoint scan_loop (service_bios : json) (attributes : dict value)
    (items : list (string * value)) (acc : scan_state)
    : pyerror + scan_state :=
  match items with
  | [] => inr acc
  | item :: rest =>
      match scan_step service_bios attributes acc item with
      | inl e => inl e
      | inr acc' => scan_loop service_bios attributes rest acc'
      end
  end.

(** The loop from its initial state: [attrs_to_patch = dict(attributes)]
    and [attrs_bad = {}]. *)
Definition scan (service_bios : json) (attributes : dict value)
    : pyerror + scan_state :=
  scan_loop service_bios attributes attributes (attributes, []).

(** [validate_input_attributes(module, service_bios, attributes)] *)
Definition validate_input_attributes (service_bios : json)
    (attributes : dict value) : res unit :=
  match scan service_bios attributes with
  | inl e => Stop (Raise e)
  | inr (attrs_to_patch, attrs_bad) =>
      if truthy attrs_bad then Stop (FailJson (IncorrectAttributes attrs_bad))
      else if negb (truthy attrs_to_patch) then
        Stop (ExitJson false (Text "Service BIOS attributes already set"))
      else Ok tt
  end.

(** *** The flow over the Redfish client *)

Section Client.
(** The controller behind the client, and the JSON parser. *)
Variable W : Type.
Variable client_get : string -> W -> response * W.
Variable client_patch : string -> patch_body -> W -> response * W.
Variable json_loads : string -> option json.

Record state := { world : W; trace : list event }.

Definition M (A : Type) : Type := state -> res A * state.

Definition ret {A} (a : A) : M A := fun s => (Ok a, s).

Definition bind {A B} (m : M A) (f : A -> M B) : M B :=
  fun s =>
    match m s with
    | (Ok a, s') => f a s'
    | (Stop x, s') => (Stop x, s')
    end.

Definition halt {A} (x : stop) : M A := fun s => (Stop x, s).

Definition lift {A} (r : res A) : M A := fun s => (r, s).

Definition lift_py {A} (r : pyerror + A) : M A :=
  match r with
  | inl e => halt (Raise e)
  | inr a => ret a
  end.

Definition log (e : event) : M unit :=
  fun s => (Ok tt, {| world := world s; trace := trace s ++ [e] |}).

Notation "x <- m ;; k" := (bind m (fun x => k))
  (at level 61, m at next level, right associativity).
Notation "' p <- m ;; k" := (bind m (fun x => match x with p => k end))
  (at level 61, p pattern, m at next level, right associativity).
Notation "m ;;; k" := (bind m (fun _ => k))
  (at level 61, right associativity).

Definition when (b : bool) (m : M unit) : M unit :=
  if b then m else ret tt.

(** [redfishClient.get(uri)] *)
Definition get_request (uri : string) : M response :=
  fun s =>
    let '(r, w) := client_get uri (world s) in
    (Ok r, {| world := w; trace := trace s ++ [Get uri] |}).

(** [redfishClient.patch(uri, body=body)] *)
Definition patch_request (uri : string) (body : patch_body) : M response :=
  fun s =>
    let '(r, w) := client_patch uri body (world s) in
    (Ok r, {| world := w; trace := trace s ++ [Patch uri body] |}).

(** [json.loads(text)] *)
Definition loads (t : string) : M json :=
  match json_loads t with
  | Some j => ret j
  | None => halt (Raise JSONDecodeError)
  end.

Definition fail_json {A} (msg : message) : M A := halt (FailJson msg).

(** [logout(redfishClient, module)] *)
Definition logout : M unit := log Logout.

(** [error_msg(module, method, uri, status, response)] *)
Definition error_msg {A} (method uri : string) (st : Z) (resp : string)
    : M A :=
  fail_json (RequestFailed method uri st resp).

(** [get_service_bios_attributes(redfishClient, module, bios_uri)];
    [bios_uri] is whatever the system document holds under
    ["Bios"]["@odata.id"]. *)
Definition get_service_bios_attributes (bios_uri : json)
    : M (string * json) :=
  service_uri <- lift_py (json_add_str bios_uri "service/settings/") ;;
  response <- get_request service_uri ;;
  '(service_uri, response) <-
     (if Z.eqb (status response) 404 then
        service_uri <-
          lift_py (json_add_str bios_uri "oem/hpe/service/settings/") ;;
        response <- get_request service_uri ;;
        ret (service_uri, response)
      else ret (service_uri, response)) ;;
  when (negb (Z.eqb (status response) 200))
    (error_msg "GET" service_uri (status response) (text response)) ;;;
  server_service_bios <- loads (text response) ;;
  ret (service_uri, server_service_bios).

(** The end of [get_service_bios_attributes] on its own: the status check
    and the parse of the response that the reader is left with. *)
Definition finish (uri : string) (r : response) (st : state)
    : res (string * json) * state :=
  if Z.eqb (status r) 200 then
    match json_loads (text r) with
    | Some j => (Ok (uri, j), st)
    | None => (Stop (Raise JSONDecodeError), st)
    end
  else (Stop (FailJson (RequestFailed "GET" uri (status r) (text r))), st).

(** [set_service_bios_attributes(redfishClient, module)], with
    [module.params["service_attributes"]] as an argument. *)
Definition set_service_bios_attributes (service_attributes : dict value)
    : M unit :=
  let uri := base_uri ++ system_uri in
  server_data <- get_request uri ;;
  when (negb (Z.eqb (status server_data) 200))
    (error_msg "GET" uri (status server_data) (text server_data)) ;;;
  server_details <- loads (text server_data) ;;
  has_bios <- lift_py (json_in "Bios" server_details) ;;
  when (negb has_bios) (fail_json (BiosKeyMissing uri server_details)) ;;;
  bios <- lift_py (json_getitem server_details "Bios") ;;
  bios_uri <- lift_py (json_getitem bios "@odata.id") ;;
  '(service_uri, server_service_bios) <-
     get_service_bios_attributes bios_uri ;;
  lift (validate_input_attributes server_service_bios service_attributes) ;;;
  let body := {| Attributes := service_attributes |} in
  response <- patch_request service_uri body ;;
  when (negb (Z.eqb (status response) 200))
    (fail_json (ApplyFailed (status response) (text response) service_uri)).

(** [main()]: [HAS_REDFISH] is the outcome of the import of the client
    library and [service_attributes] the module parameter. *)
Definition main (HAS_REDFISH : bool) (service_attributes : dict value)
    : M unit :=
  when (negb HAS_REDFISH) (fail_json (MissingLibrary "redfish")) ;;;
  log Login ;;;
  set_service_bios_attributes service_attributes ;;;
  logout ;;;
  halt (ExitJson true
          (Text "Service BIOS settings applied. System Reset required.")).

(** A run of the module from a fresh client. *)
Definition run (HAS_REDFISH : bool) (service_attributes : dict value)
    (w : W) : res unit * state :=
  main HAS_REDFISH service_attributes {| world := w; trace := [] |}.

End Client.

Arguments world {W} s.
Arguments trace {W} s.
Arguments bind {W A B} m f s.
Arguments get_request {W} client_get uri s.
Arguments finish {W} json_loads uri r st.
Arguments get_service_bios_attributes {W} client_get json_loads bios_uri s.
Arguments run {W} client_get client_patch json_loads HAS_REDFISH
  service_attributes w.

(** *** A scripted controller

    A controller that answers each of the three URIs of the flow with a
    fixed response, and a parser given by the table of its documents. *)
Record script := {
  system_response : response;
  primary_response : response;
  fallback_response : response;
  patch_response : response;
  documents : dict json
}.

Definition scripted_get (sc : script) (uri : string) (w : unit)
    : response * unit :=
  if String.eqb uri "/redfish/v1/systems/1/" then (system_response sc, tt)
  else if String.eqb uri "/redfish/v1/systems/1/bios/service/settings/"
  then (primary_response sc, tt)
  else if String.eqb uri "/redfish/v1/systems/1/bios/oem/hpe/service/settings/"
  then (fallback_response sc, tt)
  else ({| status := 404; text := "" |}, tt).

Definition scripted_patch (sc : script) (uri : string) (body : patch_body)
    (w : unit) : response * unit :=
  (patch_response sc, tt).

Definition scripted_loads (sc : script) (t : string) : option json :=
  get t (documents sc).

Definition play (sc : script) (service_attributes : dict value)
    : res unit * state unit :=
  run (scripted_get sc) (scripted_patch sc) (scripted_loads sc)
      true service_attributes tt.

Definition system_doc : json :=
  JObj [("Bios", JObj [("@odata.id", JVal (VStr "/redfish/v1/systems/1/bios/"))])].

Definition system_doc_without_bios : json :=
  JObj [("Id", JVal (VStr "1"))].

Definition service_doc : json :=
  JObj [("Attributes",
         JObj [("ProcTurbo", JVal (VStr "Enabled"));
               ("TimeZone", JVal (VStr "UTC"))])].

Definition demo_documents : dict json :=
  [("system", system_doc);
   ("system without Bios", system_doc_without_bios);
   ("service", service_doc)].

Definition ok (t : string) : response := {| status := 200; text := t |}.
Definition not_found : response := {| status := 404; text := "not found" |}.
Definition server_error : response := {| status := 500; text := "error" |}.

(** A healthy controller on the standard path. *)
Definition healthy : script :=
  {| system_response := ok "system";
     primary_response := ok "service";
     fallback_response := not_found;
     patch_response := ok "done";
     documents := demo_documents |}.

(** The standard path is unsupported and the OEM path fails. *)
Definition oem_broken : script :=
  {| system_response := ok "system";
     primary_response := not_found;
     fallback_response := server_error;
     patch_response := ok "done";
     documents := demo_documents |}.

(** The standard path is unsupported and the OEM path answers. *)
Definition oem_only : script :=
  {| system_response := ok "system";
     primary_response := not_found;
     fallback_response := ok "service";
     patch_response := ok "done";
     documents := demo_documents |}.

(** The system resource cannot be read. *)
Definition system_down : script :=
  {| system_response := server_error;
     primary_response := ok "service";
     fallback_response := not_found;
     patch_response := ok "done";
     documents := demo_documents |}.

(** The system document has no ["Bios"] key. *)
Definition no_bios : script :=
  {| system_response := ok "system without Bios";
     primary_response := ok "service";
     fallback_response := not_found;
     patch_response := ok "done";
     documents := demo_documents |}.

(** The controller refuses the write. *)
Definition patch_refused : script :=
  {| system_response := ok "system";
     primary_response := ok "service";
     fallback_response := not_found;
     patch_response := server_error;
     documents := demo_documents |}.

(** The system document has a ["Bios"] object without ["@odata.id"]. *)
Definition system_doc_without_link : json :=
  JObj [("Bios", JObj [("Id", JVal (VStr "bios"))])].

Definition no_link : script :=
  {| system_response := ok "system without link";
     primary_response := ok "service";
     fallback_response := not_found;
     patch_response := ok "done";
     documents := ("system without link", system_doc_without_link)
                  :: demo_documents |}.

(** Desired changes against [service_doc]. *)
Definition one_changed : dict value :=
  [("TimeZone", VStr "Chennai"); ("ProcTurbo", VStr "Enabled")].

Definition none_changed : dict value :=
  [("TimeZone", VStr "UTC"); ("ProcTurbo", VStr "Enabled")].

Definition two_unknown : dict value :=
  [("Bogus", VStr "x"); ("TimeZone", VStr "Chennai"); ("Other", VInt 1)].

(** *** The behaviour the design document asks for *)

(** The Diff Payload in the design's words: the items of the Desired
    Change whose value differs from the value that the Attribute Set holds
    under the same name. *)
Definition differs (current : dict json) (item : string * value) : bool :=
  match get (fst item) current with
  | Some c => negb (json_eq_value c (snd item))
  | None => false
  end.

Definition diff_payload (current : dict json) (desired : dict value)
    : dict value :=
  filter (differs current) desired.

(** The bad attributes in the design's words: the items of the Desired
    Change whose name the Attribute Set does not have. *)
Definition unknown (current : dict json) (item : string * value) : bool :=
  negb (contains (fst item) current).

Definition bad_attributes (current : dict json) (desired : dict value)
    : dict value :=
  filter (unknown current) desired.

End SetServiceBiosAttributes.

(** ** [ilo_redfish_config.py] *)

Module IloRedfishConfig.
Import Py.

(** The [category] parameter: its [choices] are the keys of
    [CATEGORY_COMMANDS_ALL], of which there is one. *)
Inductive category := Manager.

Definition CATEGORY_COMMANDS_ALL (c : category) : list string :=
  match c with
  | Manager =>
      ["SetTimeZone"; "SetDNSserver"; "SetDomainName"; "SetNTPServers";
       "SetWINSReg"]
  end.

(** A name of the Manager allow-list. *)
Definition allowed (cmd : string) : Prop :=
  In cmd (CATEGORY_COMMANDS_ALL Manager).

(** The dictionaries that the iLO utility routines return, read through
    the keys ['ret'], ['changed'] and ['msg']; [None] is an absent key. *)
Record result := {
  ret : option bool;
  changed : option bool;
  msg : option string
}.

(** [result = {}] *)
Definition empty_result : result :=
  {| ret := None; changed := None; msg := None |}.

(** [mgr_attributes]: [attribute_name] is required, [attribute_value] is
    not. *)
Record mgr_attributes := {
  mgr_attr_name : string;
  mgr_attr_value : option string
}.

Inductive message :=
| InvalidCommands (offending allowed : list string)
    (* "Invalid Command(s): '%s'. Allowed Commands = %s" *)
| Native (s : string).

(** [to_native] of a value that is a string or absent ([None] prints as
    its name). *)
Definition to_native (o : option string) : string :=
  match o with
  | Some s => s
  | None => "None"
  end.

Inductive stop :=
| ExitJson (changed : option bool) (msg : string)
| FailJson (msg : message)
| Raise (e : pyerror).

Inductive res (A : Type) :=
| Ok (a : A)
| Stop (s : stop).
Arguments Ok {A} a.
Arguments Stop {A} s.

(** The calls made on the utility object, in order: the resource locator
    and the routine bound to a command. *)
Inductive event :=
| Located
| Ran (command : string).

(** [cmd in allowed] *)
Definition mem (cmd : string) (allowed : list string) : bool :=
  existsb (String.eqb cmd) allowed.

Definition nonempty {A} (l : list A) : bool :=
  match l with [] => false | _ :: _ => true end.

Section Utils.
(** The controller behind the utility object. *)
Variable W : Type.

Definition routine : Type := mgr_attributes -> W -> result * W.

(** The methods of [iLORedfishUtils] that the module calls. *)
Record iLORedfishUtils := {
  _find_managers_resource : W -> result * W;
  set_time_zone : routine;
  set_dns_server : routine;
  set_domain_name : routine;
  set_ntp_server : routine;
  set_wins_registration : routine
}.

Variable rf_utils : iLORedfishUtils.

Record state := { world : W; trace : list event }.

Definition M (A : Type) : Type := state -> res A * state.

Definition unit_ {A} (a : A) : M A := fun s => (Ok a, s).

Definition bind {A B} (m : M A) (f : A -> M B) : M B :=
  fun s =>
    match m s with
    | (Ok a, s') => f a s'
    | (Stop x, s') => (Stop x, s')
    end.

Definition halt {A} (x : stop) : M A := fun s => (Stop x, s).

Notation "x <- m ;; k" := (bind m (fun x => k))
  (at level 61, m at next level, right associativity).
Notation "m ;;; k" := (bind m (fun _ => k))
  (at level 61, right associativity).

Definition when (b : bool) (m : M unit) : M unit :=
  if b then m else unit_ tt.

Definition fail_json {A} (m : message) : M A := halt (FailJson m).

(** [d[key]] on a result dictionary. *)
Definition getitem {A} (key : string) (field : option A) : M A :=
  match field with
  | Some a => unit_ a
  | None => halt (Raise (KeyError key))
  end.

(** A call of a method of the utility object, recorded as [e]. *)
Definition call (e : event) (f : W -> result * W) : M result :=
  fun s =>
    let '(r, w) := f (world s) in
    (Ok r, {| world := w; trace := trace s ++ [e] |}).

(** The [dispatch] dictionary of [main]. *)
Definition dispatch : dict routine :=
  [("SetTimeZone", set_time_zone rf_utils);
   ("SetDNSserver", set_dns_server rf_utils);
   ("SetDomainName", set_domain_name rf_utils);
   ("SetNTPServers", set_ntp_server rf_utils);
   ("SetWINSReg", set_wins_registration rf_utils)].

(** [for command in command_list: result = dispatch[command](mgr_attributes)] *)
Fixpoint run_commands (attrs : mgr_attributes) (command_list : list string)
    (result0 : result) : M result :=
  match command_list with
  | [] => unit_ result0
  | command :: rest =>
      match get command dispatch with
      | None => halt (Raise (KeyError command))
      | Some f =>
          r <- call (Ran command) (f attrs) ;;
          run_commands attrs rest r
      end
  end.

(** The last statement of [main]: the report of [result]. *)
Definition report (r : result) : M unit :=
  flag <- getitem "ret" (ret r) ;;
  if (flag : bool) then halt (ExitJson (changed r) (to_native (msg r)))
  else
    m <- getitem "msg" (msg r) ;;
    fail_json (Native (to_native (Some m))).

(** [main()], with the module parameters [category], [command] and the
    two attribute parameters as arguments. *)
Definition main (cat : category) (command_list : list string)
    (attrs : mgr_attributes) : M unit :=
  let result0 := empty_result in
  let offending :=
    filter (fun cmd => negb (mem cmd (CATEGORY_COMMANDS_ALL cat)))
           command_list in
  when (nonempty offending)
    (fail_json (InvalidCommands offending (CATEGORY_COMMANDS_ALL cat))) ;;;
  r <- match cat with
       | Manager =>
           resource <- call Located (_find_managers_resource rf_utils) ;;
           found <- getitem "ret" (ret resource) ;;
           when (negb found)
             (m <- getitem "msg" (msg resource) ;;
              fail_json (Native (to_native (Some m)))) ;;;
           run_commands attrs command_list result0
       end ;;
  report r.

(** A run of the module on a controller in state [w]. *)
Definition run (cat : category) (command_list : list string)
    (attrs : mgr_attributes) (w : W) : res unit * state :=
  main cat command_list attrs {| world := w; trace := [] |}.

End Utils.

Arguments _find_managers_resource {W} i w.
Arguments set_time_zone {W} i attrs w.
Arguments world {W} s.
Arguments trace {W} s.
Arguments bind {W A B} m f s.
Arguments call {W} e f s.
Arguments dispatch {W} rf_utils.
Arguments run_commands {W} rf_utils attrs command_list result0 s.
Arguments report {W} r s.
Arguments run {W} rf_utils cat command_list attrs w.

(** *** A scripted utility object

    The controller state counts the calls made; the time zone routine
    reports a failure and the other routines report a change. *)
Definition succeeded (text : string) (w : nat) : result * nat :=
  ({| ret := Some true; changed := Some true; msg := Some text |}, S w).

Definition failed (text : string) (w : nat) : result * nat :=
  ({| ret := Some false; changed := None; msg := Some text |}, S w).

Definition located (w : nat) : result * nat :=
  ({| ret := Some true; changed := None; msg := None |}, S w).

Definition time_zone_fails : iLORedfishUtils nat :=
  {| _find_managers_resource := located;
     set_time_zone := fun _ => failed "Time zone not found";
     set_dns_server := fun _ => succeeded "DNS server modified";
     set_domain_name := fun _ => succeeded "Domain name modified";
     set_ntp_server := fun _ => succeeded "NTP server modified";
     set_wins_registration := fun _ => succeeded "WINS registration modified" |}.

Definition demo_attributes : mgr_attributes :=
  {| mgr_attr_name := "TimeZone"; mgr_attr_value := Some "Chennai" |}.

(** The manager resource is not found. *)
Definition manager_missing : iLORedfishUtils nat :=
  {| _find_managers_resource := failed "Key Managers not found";
     set_time_zone := fun _ => succeeded "Time zone modified";
     set_dns_server := fun _ => succeeded "DNS server modified";
     set_domain_name := fun _ => succeeded "Domain name modified";
     set_ntp_server := fun _ => succeeded "NTP server modified";
     set_wins_registration := fun _ => succeeded "WINS registration modified" |}.

(** The DNS routine returns a dictionary without ['ret'] and ['msg']. *)
Definition silent (w : nat) : result * nat :=
  ({| ret := None; changed := Some true; msg := None |}, S w).

Definition dns_silent : iLORedfishUtils nat :=
  {| _find_managers_resource := located;
     set_time_zone := fun _ => succeeded "Time zone modified";
     set_dns_server := fun _ => silent;
     set_domain_name := fun _ => succeeded "Domain name modified";
     set_ntp_server := fun _ => succeeded "NTP server modified";
     set_wins_registration := fun _ => succeeded "WINS registration modified" |}.

End IloRedfishConfig.

(** ** Facts about dictionaries *)

Module DictFacts.
Import Py.
Local Open Scope list_scope.

Section Facts.
Context {V : Type}.
Implicit Types (d : dict V) (k : string) (v : V).

Lemma get_none_iff k d : get k d = None <-> ~ In k (keys d).
Proof.
  induction d as [|[k' v'] d IH]; simpl.
  - tauto.
  - destruct (String.eqb_spec k k') as [->|Hne].
    + split; [discriminate | intros H; exfalso; apply H; now left].
    + rewrite IH. split.
      * intros H [E|E]; [congruence | tauto].
      * intros H E. apply H. now right.
Qed.

Lemma contains_false_iff k d : contains k d = false <-> ~ In k (keys d).
Proof.
  unfold contains. rewrite <- get_none_iff.
  destruct (get k d); split; congruence.
Qed.

Lemma get_app_fresh k v d1 d2 :
  ~ In k (keys d1) -> get k (d1 ++ (k, v) :: d2) = Some v.
Proof.
  induction d1 as [|[k' v'] d1 IH]; simpl; intros H.
  - now rewrite String.eqb_refl.
  - destruct (String.eqb_spec k k') as [->|Hne]; [tauto|].
    apply IH. tauto.
Qed.

Lemma del_app_fresh k v d1 d2 :
  ~ In k (keys d1) -> del k (d1 ++ (k, v) :: d2) = Some (d1 ++ d2).
Proof.
  induction d1 as [|[k' v'] d1 IH]; simpl; intros H.
  - now rewrite String.eqb_refl.
  - destruct (String.eqb_spec k k') as [->|Hne]; [tauto|].
    rewrite IH; tauto.
Qed.

Lemma set_fresh k v d : ~ In k (keys d) -> set k v d = d ++ [(k, v)].
Proof.
  induction d as [|[k' v'] d IH]; simpl; intros H.
  - reflexivity.
  - destruct (String.eqb_spec k k') as [->|Hne]; [tauto|].
    rewrite IH; tauto.
Qed.

Lemma keys_filter_incl (f : string * V -> bool) d k :
  In k (keys (filter f d)) -> In k (keys d).
Proof.
  unfold keys. rewrite !in_map_iff.
  intros [x [E Hx]]. apply filter_In in Hx. exists x. tauto.
Qed.

Lemma wf_app_fresh d1 k v d2 :
  wf (d1 ++ (k, v) :: d2) -> ~ In k (keys d1).
Proof.
  unfold wf, keys. rewrite map_app. simpl. intros H Hin.
  apply NoDup_remove_2 in H. apply H. apply in_or_app. now left.
Qed.

Lemma wfb_wf d : wfb d = true -> wf d.
Proof.
  unfold wf. induction d as [|[k v] d IH]; simpl; intros H.
  - constructor.
  - apply andb_true_iff in H. destruct H as [Hk Hd].
    constructor; [|now apply IH].
    intros Hin. apply negb_true_iff in Hk.
    assert (E : existsb (String.eqb k) (keys d) = true)
      by (apply existsb_exists; exists k; split;
          [exact Hin | apply String.eqb_refl]).
    congruence.
Qed.

Lemma truthy_false d : truthy d = false <-> d = [].
Proof. destruct d; simpl; split; congruence. Qed.

Lemma truthy_filter (f : string * V -> bool) d :
  truthy (filter f d) = true <-> exists x, In x d /\ f x = true.
Proof.
  induction d as [|x d IH]; simpl.
  - split; [discriminate | intros [x [[] _]]].
  - destruct (f x) eqn:Hx; simpl.
    + split; [intros _; exists x; auto | reflexivity].
    + rewrite IH. split.
      * intros [y [Hy Hf]]. exists y. auto.
      * intros [y [[->|Hy] Hf]]; [congruence | exists y; auto].
Qed.

Lemma in_keys_iff k d : In k (keys d) <-> exists v, In (k, v) d.
Proof.
  unfold keys. rewrite in_map_iff. split.
  - intros [[k' v] [E H]]. simpl in E. subst. now exists v.
  - intros [v H]. now exists (k, v).
Qed.

Lemma wf_get k v d : wf d -> In (k, v) d -> get k d = Some v.
Proof.
  intros Hwf Hin. apply in_split in Hin. destruct Hin as [d1 [d2 ->]].
  apply get_app_fresh. eapply wf_app_fresh. exact Hwf.
Qed.
End Facts.

End DictFacts.

(** ** The attribute validator of [set_service_bios_attributes.py] *)

Module ValidatorProofs.
Import Py SetServiceBiosAttributes DictFacts.
Local Open Scope list_scope.

Section Scan.
Variable service_bios : json.
Variable current : dict json.
Hypothesis Hcurrent : json_getitem service_bios "Attributes" = inr (JObj current).

Lemma diff_payload_snoc (visited : dict value) (item : string * value) :
  diff_payload current (visited ++ [item])
  = diff_payload current visited
    ++ (if differs current item then [item] else []).
Proof. unfold diff_payload. now rewrite filter_app. Qed.

Lemma bad_attributes_snoc (visited : dict value) (item : string * value) :
  bad_attributes current (visited ++ [item])
  = bad_attributes current visited
    ++ (if unknown current item then [item] else []).
Proof. unfold bad_attributes. now rewrite filter_app. Qed.

(** The loop keeps [attrs_to_patch] equal to the Diff Payload of the
    items already visited followed by the items still to visit, and
    [attrs_bad] equal to the bad attributes among the items visited. *)
Lemma scan_loop_invariant (attributes : dict value) :
  wf attributes ->
  forall rest visited,
    attributes = visited ++ rest ->
    scan_loop service_bios attributes rest
      (diff_payload current visited ++ rest, bad_attributes current visited)
    = inr (diff_payload current attributes, bad_attributes current attributes).
Proof.
  intros Hwf rest. induction rest as [|[k v] rest IH]; intros visited Heq.
  - simpl. rewrite app_nil_r in *. now subst.
  - assert (Hfresh : ~ In k (keys visited))
      by (subst attributes; eapply wf_app_fresh; eassumption).
    assert (Hp : ~ In k (keys (diff_payload current visited)))
      by (intros H; apply Hfresh; eapply keys_filter_incl; exact H).
    assert (Hb : ~ In k (keys (bad_attributes current visited)))
      by (intros H; apply Hfresh; eapply keys_filter_incl; exact H).
    assert (Hk : get k attributes = Some v)
      by (subst attributes; now apply get_app_fresh).
    specialize (IH (visited ++ [(k, v)])).
    rewrite <- app_assoc in IH. specialize (IH Heq).
    rewrite diff_payload_snoc, bad_attributes_snoc in IH.
    unfold differs, unknown, contains in IH. simpl in IH.
    simpl. rewrite Hcurrent. simpl. unfold contains.
    destruct (get k current) as [c|]; simpl in *.
    + rewrite Hk.
      destruct (json_eq_value c v); simpl in IH.
      * rewrite del_app_fresh by exact Hp.
        rewrite !app_nil_r in IH. exact IH.
      * rewrite <- app_assoc in IH. rewrite app_nil_r in IH. exact IH.
    + rewrite del_app_fresh by exact Hp.
      rewrite set_fresh by exact Hb.
      rewrite app_nil_r in IH. exact IH.
Qed.

(** The loop computes the Diff Payload and the bad attributes. *)
Lemma scan_computes (attributes : dict value) :
  wf attributes ->
  scan service_bios attributes
  = inr (diff_payload current attributes, bad_attributes current attributes).
Proof.
  intros Hwf. unfold scan.
  exact (scan_loop_invariant attributes Hwf attributes [] eq_refl).
Qed.
End Scan.

(** The outcome of the validator from what the loop computes. *)
Lemma validate_outcome (service_bios : json) (current : dict json)
    (attributes : dict value) :
  json_getitem service_bios "Attributes" = inr (JObj current) ->
  wf attributes ->
  validate_input_attributes service_bios attributes
  = if truthy (bad_attributes current attributes)
    then Stop (FailJson (IncorrectAttributes (bad_attributes current attributes)))
    else if negb (truthy (diff_payload current attributes))
    then Stop (ExitJson false (Text "Service BIOS attributes already set"))
    else Ok tt.
Proof.
  intros Hcur Hwf. unfold validate_input_attributes.
  now rewrite (scan_computes _ _ Hcur _ Hwf).
Qed.

Lemma unknown_key_iff (current : dict json) (attributes : dict value) k :
  In k (keys (bad_attributes current attributes))
  <-> In k (keys attributes) /\ contains k current = false.
Proof.
  unfold bad_attributes. rewrite !in_keys_iff. split.
  - intros [v H]. apply filter_In in H. destruct H as [Hin Hu].
    unfold unknown in Hu. simpl in Hu. apply negb_true_iff in Hu.
    split; [now exists v | exact Hu].
  - intros [[v Hin] Hc]. exists v. apply filter_In. split; [exact Hin|].
    unfold unknown. simpl. now rewrite Hc.
Qed.

(** C8: for every current Attribute Set and every Desired Change, the
    loop of the validator ends, and the pending payload [attrs_to_patch]
    that it leaves is a subset of the Desired Change and holds no name
    whose current value equals the desired value. *)
Theorem diff_payload_subset_and_minimal (service_bios : json)
    (current : dict json) (attributes : dict value) :
  json_getitem service_bios "Attributes" = inr (JObj current) ->
  wf attributes ->
  exists attrs_to_patch attrs_bad,
    scan service_bios attributes = inr (attrs_to_patch, attrs_bad) /\
    (forall k v, In (k, v) attrs_to_patch -> In (k, v) attributes) /\
    (forall k c v,
        In k (keys attrs_to_patch) ->
        get k current = Some c -> get k attributes = Some v ->
        json_eq_value c v = false).
Proof.
  intros Hcur Hwf.
  exists (diff_payload current attributes), (bad_attributes current attributes).
  split; [now apply scan_computes|]. split.
  - intros k v H. apply filter_In in H. tauto.
  - intros k c v Hk Hc Hv. apply in_keys_iff in Hk. destruct Hk as [v' H].
    apply filter_In in H. destruct H as [Hin Hd].
    rewrite (wf_get _ _ _ Hwf Hin) in Hv. injection Hv as <-.
    unfold differs in Hd. simpl in Hd. rewrite Hc in Hd.
    now apply negb_true_iff in Hd.
Qed.

Lemma diff_payload_subset_and_minimal_witness :
  exists attrs_to_patch attrs_bad,
    scan service_doc one_changed = inr (attrs_to_patch, attrs_bad) /\
    (forall k v, In (k, v) attrs_to_patch -> In (k, v) one_changed) /\
    (forall k c v,
        In k (keys attrs_to_patch) ->
        get k [("ProcTurbo", JVal (VStr "Enabled"));
               ("TimeZone", JVal (VStr "UTC"))] = Some c ->
        get k one_changed = Some v ->
        json_eq_value c v = false).
Proof.
  apply (diff_payload_subset_and_minimal service_doc).
  - reflexivity.
  - apply wfb_wf. reflexivity.
Defined.

(** C4: the validator fails with the invalid-attribute error if and only
    if some requested name is absent from the current Attribute Set, and
    the names that the error lists are exactly the absent ones. *)
Theorem invalid_attribute_error_iff (service_bios : json)
    (current : dict json) (attributes : dict value) :
  json_getitem service_bios "Attributes" = inr (JObj current) ->
  wf attributes ->
  ((exists attrs_bad,
       validate_input_attributes service_bios attributes
       = Stop (FailJson (IncorrectAttributes attrs_bad)))
   <-> (exists k, In k (keys attributes) /\ contains k current = false))
  /\ (forall attrs_bad,
         validate_input_attributes service_bios attributes
         = Stop (FailJson (IncorrectAttributes attrs_bad)) ->
         forall k, In k (keys attrs_bad)
                   <-> In k (keys attributes) /\ contains k current = false).
Proof.
  intros Hcur Hwf. rewrite (validate_outcome _ _ _ Hcur Hwf).
  destruct (truthy (bad_attributes current attributes)) eqn:Hbad.
  - split.
    + split; [|intros _; eexists; reflexivity].
      intros _. apply truthy_filter in Hbad. destruct Hbad as [[k v] [Hin Hu]].
      exists k. split; [apply in_keys_iff; now exists v|].
      unfold unknown in Hu. simpl in Hu. now apply negb_true_iff in Hu.
    + intros attrs_bad E. injection E as <-. apply unknown_key_iff.
  - split.
    + split.
      * intros [attrs_bad E].
        destruct (negb (truthy (diff_payload current attributes))); discriminate.
      * intros [k Hk]. apply unknown_key_iff in Hk.
        apply truthy_false in Hbad. rewrite Hbad in Hk. destruct Hk.
    + intros attrs_bad E.
      destruct (negb (truthy (diff_payload current attributes))); discriminate.
Qed.

Lemma invalid_attribute_error_iff_witness :
  validate_input_attributes service_doc two_unknown
  = Stop (FailJson (IncorrectAttributes
                      [("Bogus", VStr "x"); ("Other", VInt 1)]))
  /\ forall k, In k ["Bogus"; "Other"]
               <-> In k (keys two_unknown)
                   /\ contains k [("ProcTurbo", JVal (VStr "Enabled"));
                                  ("TimeZone", JVal (VStr "UTC"))] = false.
Proof.
  split; [reflexivity|].
  refine (proj2 (invalid_attribute_error_iff service_doc _ two_unknown _ _)
                [("Bogus", VStr "x"); ("Other", VInt 1)] _).
  - reflexivity.
  - apply wfb_wf. reflexivity.
  - reflexivity.
Defined.

End ValidatorProofs.

(** ** The flow of [set_service_bios_attributes.py] *)

Module FlowProofs.
Import Py SetServiceBiosAttributes DictFacts ValidatorProofs.
Local Open Scope list_scope.
Local Open Scope Z_scope.

Section Flow.
Variable W : Type.
Variable client_get : string -> W -> response * W.
Variable client_patch : string -> patch_body -> W -> response * W.
Variable json_loads : string -> option json.

Lemma bind_ok {A B} (m : M W A) (f : A -> M W B) (s s' : state W) (a : A) :
  m s = (Ok a, s') -> bind m f s = f a s'.
Proof. intros H. unfold bind. now rewrite H. Qed.

Lemma bind_stop {A B} (m : M W A) (f : A -> M W B) (s s' : state W) x :
  m s = (Stop x, s') -> bind m f s = (Stop x, s').
Proof. intros H. unfold bind. now rewrite H. Qed.

Lemma get_request_eq (uri : string) (s : state W) (r : response) (w : W) :
  client_get uri (world s) = (r, w) ->
  get_request client_get uri s
  = (Ok r, {| world := w; trace := trace s ++ [Get uri] |}).
Proof. intros H. unfold get_request. now rewrite H. Qed.

(** The Attribute Reader adds nothing but reads to the trace. *)
Lemma reader_reads_only (bios_uri : json) (st : state W) :
  exists l,
    trace (snd (get_service_bios_attributes client_get json_loads bios_uri st))
    = trace st ++ l
    /\ reads_only l.
Proof.
  unfold get_service_bios_attributes, bind, lift_py, get_request, when,
    error_msg, fail_json, halt, loads, ret.
  destruct (json_add_str bios_uri "service/settings/") as [e|u1]; simpl.
  - exists []. rewrite app_nil_r. split; constructor.
  - destruct (client_get u1 (world st)) as [r1 w1]; simpl.
    destruct (status r1 =? 404); simpl.
    + destruct (json_add_str bios_uri "oem/hpe/service/settings/")
        as [e|u2]; simpl.
      * exists [Get u1]. split; [reflexivity | repeat constructor].
      * destruct (client_get u2 w1) as [r2 w2]; simpl.
        exists [Get u1; Get u2]. split; [|repeat constructor].
        destruct (status r2 =? 200); simpl;
          [destruct (json_loads (text r2))|]; simpl;
          now rewrite <- app_assoc.
    + exists [Get u1]. split; [|repeat constructor].
      destruct (status r1 =? 200); simpl;
        [destruct (json_loads (text r1))|]; reflexivity.
Qed.

Lemma finish_state uri r (st : state W) :
  snd (finish json_loads uri r st) = st.
Proof.
  unfold finish. destruct (status r =? 200); [|reflexivity].
  now destruct (json_loads (text r)).
Qed.

Lemma reader_cases (b : string) (st : state W) (r1 : response) (w1 : W) :
  client_get (b ++ "service/settings/")%string (world st) = (r1, w1) ->
  get_service_bios_attributes client_get json_loads (JVal (VStr b)) st
  = if status r1 =? 404 then
      let '(r2, w2) := client_get (b ++ "oem/hpe/service/settings/")%string w1 in
      finish json_loads (b ++ "oem/hpe/service/settings/")%string r2
        {| world := w2;
           trace := trace st ++ [Get (b ++ "service/settings/")%string;
                                   Get (b ++ "oem/hpe/service/settings/")%string] |}
    else
      finish json_loads (b ++ "service/settings/")%string r1
        {| world := w1;
           trace := trace st ++ [Get (b ++ "service/settings/")%string] |}.
Proof.
  intros H.
  unfold get_service_bios_attributes, bind, lift_py, get_request,
    json_add_str, ret.
  rewrite H. destruct (status r1 =? 404).
  - cbn [world trace].
    destruct (client_get (b ++ "oem/hpe/service/settings/")%string w1)
      as [r2 w2].
    rewrite <- app_assoc. cbn [app].
    unfold finish, when, error_msg, fail_json, halt, loads, ret.
    destruct (status r2 =? 200); cbn [negb]; [|reflexivity].
    now destruct (json_loads (text r2)).
  - unfold finish, when, error_msg, fail_json, halt, loads, ret.
    destruct (status r1 =? 200); cbn [negb]; [|reflexivity].
    now destruct (json_loads (text r1)).
Qed.

(** C6: when the primary service-settings path answers 404 the OEM path
    is read, once; when it answers anything else the OEM path is not read;
    and when the read that ends the Attribute Reader has a status other
    than 200, the error carries the URI, status and body of that read. *)
Theorem reader_fallback_rule (b : string) (st : state W) :
  let primary := (b ++ "service/settings/")%string in
  let fallback := (b ++ "oem/hpe/service/settings/")%string in
  let r1 := fst (client_get primary (world st)) in
  let w1 := snd (client_get primary (world st)) in
  let r2 := fst (client_get fallback w1) in
  let out := get_service_bios_attributes client_get json_loads (JVal (VStr b)) st in
  (status r1 = 404 ->
     trace (snd out) = trace st ++ [Get primary; Get fallback]
     /\ (status r2 <> 200 ->
         fst out
         = Stop (FailJson (RequestFailed "GET" fallback (status r2) (text r2)))))
  /\ (status r1 <> 404 ->
        trace (snd out) = trace st ++ [Get primary]
        /\ (status r1 <> 200 ->
            fst out
            = Stop (FailJson
                      (RequestFailed "GET" primary (status r1) (text r1))))).
Proof.
  intros primary fallback r1 w1 r2 out.
  assert (Hout : out = get_service_bios_attributes client_get json_loads
                         (JVal (VStr b)) st) by reflexivity.
  rewrite (reader_cases b st r1 w1) in Hout
    by (subst r1 w1; apply surjective_pairing).
  fold primary fallback in Hout. clearbody out. subst out.
  split.
  - intros H404. rewrite H404. cbn [Z.eqb Pos.eqb].
    assert (E : client_get fallback w1 = (r2, snd (client_get fallback w1)))
      by (subst r2; apply surjective_pairing).
    rewrite E. rewrite finish_state. split; [reflexivity|].
    intros H200. apply Z.eqb_neq in H200. unfold finish. now rewrite H200.
  - intros H404. apply Z.eqb_neq in H404. rewrite H404.
    rewrite finish_state. split; [reflexivity|].
    intros H200. apply Z.eqb_neq in H200. unfold finish. now rewrite H200.
Qed.

(** C5: when the system resource is located, the Attribute Reader returns
    a document whose Attribute Set has every requested name with the
    requested value, the module stops with [changed=False] and the
    already-set message, and no PATCH request has been made. *)
Theorem already_set_makes_no_write (service_attributes : dict value)
    (w w1 : W) (r0 : response) (server_details : dict json)
    (bios bios_uri service_bios : json) (service_uri : string)
    (current : dict json) (st2 : state W) :
  client_get (base_uri ++ system_uri)%string w = (r0, w1) ->
  status r0 = 200 ->
  json_loads (text r0) = Some (JObj server_details) ->
  get "Bios" server_details = Some bios ->
  json_getitem bios "@odata.id" = inr bios_uri ->
  get_service_bios_attributes client_get json_loads bios_uri
    {| world := w1; trace := [Login; Get (base_uri ++ system_uri)%string] |}
  = (Ok (service_uri, service_bios), st2) ->
  json_getitem service_bios "Attributes" = inr (JObj current) ->
  wf service_attributes ->
  (forall k v, In (k, v) service_attributes ->
               exists c, get k current = Some c /\ json_eq_value c v = true) ->
  run client_get client_patch json_loads true service_attributes w
  = (Stop (ExitJson false (Text "Service BIOS attributes already set")), st2)
  /\ (forall uri body, ~ In (Patch uri body) (trace st2)).
Proof.
  intros Hget H200 Hloads Hbios Hid Hreader Hattrs Hwf Hsame.
  assert (Hvalid : validate_input_attributes service_bios service_attributes
                   = Stop (ExitJson false
                             (Text "Service BIOS attributes already set"))).
  { rewrite (validate_outcome _ _ _ Hattrs Hwf).
    assert (Hb : bad_attributes current service_attributes = []).
    { apply truthy_false. apply not_true_is_false. intros H.
      apply truthy_filter in H. destruct H as [[k v] [Hin Hu]].
      destruct (Hsame k v Hin) as [c [Hc _]].
      unfold unknown, contains in Hu. simpl in Hu. now rewrite Hc in Hu. }
    assert (Hd : diff_payload current service_attributes = []).
    { apply truthy_false. apply not_true_is_false. intros H.
      apply truthy_filter in H. destruct H as [[k v] [Hin Hu]].
      destruct (Hsame k v Hin) as [c [Hc Heq]].
      unfold differs in Hu. simpl in Hu. rewrite Hc, Heq in Hu.
      discriminate. }
    now rewrite Hb, Hd. }
  split.
  - unfold run, main.
    erewrite bind_ok by reflexivity.
    erewrite bind_ok by reflexivity.
    erewrite bind_stop; [reflexivity|].
    unfold set_service_bios_attributes. cbv zeta.
    erewrite bind_ok by (apply get_request_eq; exact Hget).
    erewrite bind_ok by (rewrite H200; reflexivity).
    erewrite bind_ok by (unfold loads; rewrite Hloads; reflexivity).
    erewrite bind_ok
      by (unfold lift_py, json_in, contains; rewrite Hbios; reflexivity).
    erewrite bind_ok by reflexivity.
    erewrite bind_ok
      by (unfold lift_py, json_getitem; rewrite Hbios; reflexivity).
    erewrite bind_ok by (unfold lift_py; rewrite Hid; reflexivity).
    erewrite bind_ok by exact Hreader.
    cbv iota beta.
    erewrite bind_stop; [reflexivity|].
    unfold lift. now rewrite Hvalid.
  - intros uri body Hin.
    destruct (reader_reads_only bios_uri
                {| world := w1;
                   trace := [Login; Get (base_uri ++ system_uri)%string] |})
      as [l [Ht Hl]].
    rewrite Hreader in Ht. simpl in Ht. rewrite Ht in Hin.
    destruct Hin as [E|[E|Hin]]; try discriminate.
    unfold reads_only in Hl. rewrite Forall_forall in Hl.
    specialize (Hl _ Hin). discriminate.
Qed.

End Flow.

Lemma reader_fallback_rule_witness :
  let st := {| world := tt; trace := [Login; Get "/redfish/v1/systems/1/"] |} in
  let out :=
    get_service_bios_attributes (scripted_get oem_broken)
      (scripted_loads oem_broken) (JVal (VStr "/redfish/v1/systems/1/bios/"))
      st in
  trace (snd out)
  = [Login; Get "/redfish/v1/systems/1/";
     Get "/redfish/v1/systems/1/bios/service/settings/";
     Get "/redfish/v1/systems/1/bios/oem/hpe/service/settings/"]
  /\ fst out
     = Stop (FailJson
               (RequestFailed "GET"
                  "/redfish/v1/systems/1/bios/oem/hpe/service/settings/"
                  500 "error")).
Proof.
  intros st out.
  destruct (reader_fallback_rule unit (scripted_get oem_broken)
              (scripted_loads oem_broken) "/redfish/v1/systems/1/bios/" st)
    as [H _].
  destruct (H eq_refl) as [Ht Hf].
  split; [exact Ht | apply Hf; discriminate].
Defined.

Lemma already_set_makes_no_write_witness :
  let st := {| world := tt;
               trace := [Login; Get "/redfish/v1/systems/1/";
                         Get "/redfish/v1/systems/1/bios/service/settings/"] |} in
  play healthy none_changed
  = (Stop (ExitJson false (Text "Service BIOS attributes already set")), st)
  /\ (forall uri body, ~ In (Patch uri body) (trace st)).
Proof.
  refine (already_set_makes_no_write unit (scripted_get healthy)
            (scripted_patch healthy) (scripted_loads healthy) none_changed
            tt tt (ok "system")
            [("Bios", JObj [("@odata.id",
                             JVal (VStr "/redfish/v1/systems/1/bios/"))])]
            (JObj [("@odata.id", JVal (VStr "/redfish/v1/systems/1/bios/"))])
            (JVal (VStr "/redfish/v1/systems/1/bios/")) service_doc
            "/redfish/v1/systems/1/bios/service/settings/"
            [("ProcTurbo", JVal (VStr "Enabled"));
             ("TimeZone", JVal (VStr "UTC"))]
            _ _ _ _ _ _ _ _ _ _); try reflexivity.
  - apply wfb_wf. reflexivity.
  - intros k v [E|[E|[]]]; injection E as <- <-; eexists; split; reflexivity.
Defined.

(** C1: a run that reaches the apply step.  The validator's pending
    payload holds the one attribute that differs, while the body of the
    PATCH request holds both requested attributes, the one that is already
    set included: the body is built from [service_attributes], not from
    [attrs_to_patch]. *)
Theorem patch_body_is_whole_request :
  scan service_doc one_changed = inr ([("TimeZone", VStr "Chennai")], [])
  /\ play healthy one_changed
     = (Stop (ExitJson true
                (Text "Service BIOS settings applied. System Reset required.")),
        {| world := tt;
           trace :=
             [Login; Get "/redfish/v1/systems/1/";
              Get "/redfish/v1/systems/1/bios/service/settings/";
              Patch "/redfish/v1/systems/1/bios/service/settings/"
                {| Attributes := [("TimeZone", VStr "Chennai");
                                  ("ProcTurbo", VStr "Enabled")] |};
              Logout] |}).
Proof. split; reflexivity. Qed.

(** C2: the runs that stop inside [set_service_bios_attributes]: an
    unreadable system resource, a missing ["Bios"] key, an unreadable
    service resource, unknown attributes, attributes already set, and a
    refused write.  In each the session is opened and [logout] is not
    reached. *)
Theorem early_exits_skip_logout :
  play system_down one_changed
  = (Stop (FailJson (RequestFailed "GET" "/redfish/v1/systems/1/" 500 "error")),
     {| world := tt; trace := [Login; Get "/redfish/v1/systems/1/"] |})
  /\ play no_bios one_changed
     = (Stop (FailJson (BiosKeyMissing "/redfish/v1/systems/1/"
                          system_doc_without_bios)),
        {| world := tt; trace := [Login; Get "/redfish/v1/systems/1/"] |})
  /\ play oem_broken one_changed
     = (Stop (FailJson
                (RequestFailed "GET"
                   "/redfish/v1/systems/1/bios/oem/hpe/service/settings/"
                   500 "error")),
        {| world := tt;
           trace := [Login; Get "/redfish/v1/systems/1/";
                     Get "/redfish/v1/systems/1/bios/service/settings/";
                     Get "/redfish/v1/systems/1/bios/oem/hpe/service/settings/"] |})
  /\ play healthy two_unknown
     = (Stop (FailJson (IncorrectAttributes
                          [("Bogus", VStr "x"); ("Other", VInt 1)])),
        {| world := tt;
           trace := [Login; Get "/redfish/v1/systems/1/";
                     Get "/redfish/v1/systems/1/bios/service/settings/"] |})
  /\ play healthy none_changed
     = (Stop (ExitJson false (Text "Service BIOS attributes already set")),
        {| world := tt;
           trace := [Login; Get "/redfish/v1/systems/1/";
                     Get "/redfish/v1/systems/1/bios/service/settings/"] |})
  /\ play patch_refused one_changed
     = (Stop (FailJson
                (ApplyFailed 500 "error"
                   "/redfish/v1/systems/1/bios/service/settings/")),
        {| world := tt;
           trace := [Login; Get "/redfish/v1/systems/1/";
                     Get "/redfish/v1/systems/1/bios/service/settings/";
                     Patch "/redfish/v1/systems/1/bios/service/settings/"
                       {| Attributes := one_changed |}] |}).
Proof. repeat split; reflexivity. Qed.

End FlowProofs.

(** ** The command dispatcher of [ilo_redfish_config.py] *)

Module DispatcherProofs.
Import Py IloRedfishConfig.
Local Open Scope list_scope.

Lemma mem_iff (cmd : string) (l : list string) : mem cmd l = true <-> In cmd l.
Proof.
  unfold mem. rewrite existsb_exists. split.
  - intros [x [Hin E]]. apply String.eqb_eq in E. now subst.
  - intros H. exists cmd. split; [exact H | apply String.eqb_refl].
Qed.

Lemma offending_iff (cmd : string) (cat : category) (l : list string) :
  In cmd (filter (fun c => negb (mem c (CATEGORY_COMMANDS_ALL cat))) l)
  <-> In cmd l /\ ~ In cmd (CATEGORY_COMMANDS_ALL cat).
Proof.
  rewrite filter_In, negb_true_iff.
  pose proof (mem_iff cmd (CATEGORY_COMMANDS_ALL cat)) as Hm.
  destruct (mem cmd (CATEGORY_COMMANDS_ALL cat)).
  - split; intros [H1 H2]; [discriminate | exfalso; now apply H2, Hm].
  - split; intros [H1 H2]; (split; [exact H1|]); [|reflexivity].
    intros Hin. apply Hm in Hin. discriminate.
Qed.

Lemma no_offending (cat : category) (l : list string) :
  Forall (fun c => In c (CATEGORY_COMMANDS_ALL cat)) l ->
  filter (fun c => negb (mem c (CATEGORY_COMMANDS_ALL cat))) l = [].
Proof.
  induction 1 as [|c l Hc _ IH]; simpl; [reflexivity|].
  apply mem_iff in Hc. now rewrite Hc.
Qed.

Section Dispatcher.
Variable W : Type.
Variable rf_utils : iLORedfishUtils W.
Variable attrs : mgr_attributes.

Lemma step_ok {A B} (m : M W A) (f : A -> M W B) (s s' : state W) (a : A) :
  m s = (Ok a, s') -> bind m f s = f a s'.
Proof. intros H. unfold bind. now rewrite H. Qed.

Lemma step_stop {A B} (m : M W A) (f : A -> M W B) (s s' : state W) x :
  m s = (Stop x, s') -> bind m f s = (Stop x, s').
Proof. intros H. unfold bind. now rewrite H. Qed.

(** Every allowed command is bound to a routine. *)
Lemma dispatch_allowed (cmd : string) :
  allowed cmd -> exists f, get cmd (dispatch rf_utils) = Some f.
Proof.
  unfold allowed. simpl.
  intros [<-|[<-|[<-|[<-|[<-|[]]]]]]; eexists; reflexivity.
Qed.

(** The loop runs every command of a valid list, in order. *)
Lemma run_commands_trace (command_list : list string) :
  Forall allowed command_list ->
  forall (r0 : result) (st : state W),
  exists r w,
    run_commands rf_utils attrs command_list r0 st
    = (Ok r, {| world := w; trace := trace st ++ map Ran command_list |}).
Proof.
  induction 1 as [|c l Hc _ IH]; intros r0 st; cbn [run_commands map].
  - exists r0, (world st). rewrite app_nil_r. now destruct st.
  - destruct (dispatch_allowed c Hc) as [f Hf]. rewrite Hf.
    unfold bind, call. destruct (f attrs (world st)) as [r w].
    destruct (IH r {| world := w; trace := trace st ++ [Ran c] |})
      as [r' [w' E]].
    exists r', w'. rewrite E. cbn [trace]. now rewrite <- app_assoc.
Qed.

(** The loop over a list that ends with [last] is the loop over what
    comes before, followed by the routine of [last]. *)
Lemma run_commands_snoc (front : list string) (last : string) :
  forall (r0 : result) (st : state W),
    run_commands rf_utils attrs (front ++ [last]) r0 st
    = bind (run_commands rf_utils attrs front r0)
        (fun r => run_commands rf_utils attrs [last] r) st.
Proof.
  induction front as [|c front IH]; intros r0 st.
  - reflexivity.
  - simpl app. cbn [run_commands].
    destruct (get c (dispatch rf_utils)) as [f|]; [|reflexivity].
    unfold bind at 1 2 3. unfold call.
    destruct (f attrs (world st)) as [r w]. apply IH.
Qed.

Lemma bind_bind_ok {A B C} (m : M W A) (f : A -> M W B) (g : B -> M W C)
    (s s' : state W) (a : A) :
  m s = (Ok a, s') -> bind (bind m f) g s = bind (f a) g s'.
Proof. intros H. unfold bind. now rewrite H. Qed.

Lemma call_eq (e : event) (f : W -> result * W) (s : state W) r w :
  f (world s) = (r, w) ->
  call e f s = (Ok r, {| world := w; trace := trace s ++ [e] |}).
Proof. intros H. unfold call. now rewrite H. Qed.

Lemma report_state (r : result) (st : state W) : snd (report r st) = st.
Proof.
  unfold report, bind, getitem, fail_json, halt, unit_.
  destruct (ret r) as [[|]|]; try reflexivity.
  now destruct (msg r).
Qed.

(** A run with valid commands on a controller whose manager resource is
    found: the loop from the empty result, then the report. *)
Lemma main_valid (command_list : list string) (w w1 : W) (resource : result) :
  Forall allowed command_list ->
  _find_managers_resource rf_utils w = (resource, w1) ->
  ret resource = Some true ->
  run rf_utils Manager command_list attrs w
  = bind (run_commands rf_utils attrs command_list empty_result)
      report {| world := w1; trace := [Located] |}.
Proof.
  intros Hvalid Hfind Hret. unfold run, main. cbv zeta.
  rewrite (no_offending Manager command_list Hvalid).
  erewrite step_ok by reflexivity.
  erewrite bind_bind_ok by (apply call_eq; exact Hfind).
  erewrite bind_bind_ok by (rewrite Hret; reflexivity).
  erewrite bind_bind_ok by reflexivity.
  reflexivity.
Qed.

(** The report of a result, by its keys. *)
Lemma report_cases (r : result) (st : state W) :
  report r st
  = (match ret r with
     | None => Stop (Raise (KeyError "ret"))
     | Some true => Stop (ExitJson (changed r) (to_native (msg r)))
     | Some false =>
         match msg r with
         | None => Stop (Raise (KeyError "msg"))
         | Some m => Stop (FailJson (Native m))
         end
     end, st).
Proof.
  unfold report, bind, getitem, fail_json, halt, unit_.
  destruct (ret r) as [[|]|]; try reflexivity.
  now destruct (msg r).
Qed.

(** A run with valid commands and the manager resource found is the
    report of the result of the last operation. *)
Lemma run_reports_last (front : list string) (last : string) (w : W) :
  Forall allowed (front ++ [last]) ->
  ret (fst (_find_managers_resource rf_utils w)) = Some true ->
  exists (before : result) (st1 : state W) (f : routine W),
    run_commands rf_utils attrs front empty_result
      {| world := snd (_find_managers_resource rf_utils w);
         trace := [Located] |}
    = (Ok before, st1)
    /\ get last (dispatch rf_utils) = Some f
    /\ run rf_utils Manager (front ++ [last]) attrs w
       = report (fst (f attrs (world st1)))
           {| world := snd (f attrs (world st1));
              trace := Located :: map Ran (front ++ [last]) |}.
Proof.
  intros Hvalid Hret.
  assert (Hparts : Forall allowed front /\ allowed last).
  { apply Forall_app in Hvalid. destruct Hvalid as [H1 H2].
    split; [exact H1 | now inversion H2]. }
  destruct Hparts as [Hfront Hlast].
  destruct (run_commands_trace front Hfront empty_result
              {| world := snd (_find_managers_resource rf_utils w);
                 trace := [Located] |}) as [before [w1 E]].
  destruct (dispatch_allowed last Hlast) as [f Hf].
  cbn [trace] in E.
  exists before, {| world := w1; trace := [Located] ++ map Ran front |}, f.
  split; [exact E|]. split; [exact Hf|].
  rewrite (main_valid (front ++ [last]) w
             (snd (_find_managers_resource rf_utils w))
             (fst (_find_managers_resource rf_utils w)) Hvalid
             (surjective_pairing _) Hret).
  unfold bind at 1. rewrite run_commands_snoc.
  unfold bind at 1. rewrite E. cbn [run_commands]. rewrite Hf.
  unfold bind at 1. unfold call at 1. cbn [world trace].
  destruct (f attrs w1) as [r w2]. cbn [fst snd]. unfold unit_ at 1.
  rewrite map_app. reflexivity.
Qed.

(** C3, as the code has it: with valid commands and the manager resource
    found, every operation of the list is executed, in the order given,
    whatever the routines before it have reported; and a reported failure
    is acted on only after the loop, through the result of the last
    operation: the module reports success when that result has a true
    ['ret'] and fails with its ['msg'] when it has a false one, whatever
    the earlier results were. *)
Theorem every_command_runs (command_list : list string) (w : W) :
  Forall allowed command_list ->
  ret (fst (_find_managers_resource rf_utils w)) = Some true ->
  trace (snd (run rf_utils Manager command_list attrs w))
  = Located :: map Ran command_list
  /\ (forall front last,
        command_list = front ++ [last] ->
        exists (before : result) (st1 : state W) (f : routine W),
          run_commands rf_utils attrs front empty_result
            {| world := snd (_find_managers_resource rf_utils w);
               trace := [Located] |}
          = (Ok before, st1)
          /\ get last (dispatch rf_utils) = Some f
          /\ let r := fst (f attrs (world st1)) in
             let out := fst (run rf_utils Manager command_list attrs w) in
             (ret r = Some true ->
              out = Stop (ExitJson (changed r) (to_native (msg r))))
             /\ (forall m, ret r = Some false -> msg r = Some m ->
                           out = Stop (FailJson (Native m)))).
Proof.
  intros Hvalid Hret. split.
  - rewrite (main_valid command_list w
               (snd (_find_managers_resource rf_utils w))
               (fst (_find_managers_resource rf_utils w)) Hvalid
               (surjective_pairing _) Hret).
    destruct (run_commands_trace command_list Hvalid empty_result
                {| world := snd (_find_managers_resource rf_utils w);
                   trace := [Located] |}) as [r [w' E]].
    unfold bind. rewrite E. now rewrite report_state.
  - intros front last ->.
    destruct (run_reports_last front last w Hvalid Hret)
      as [before [st1 [f [E [Hf Hrun]]]]].
    exists before, st1, f. split; [exact E|]. split; [exact Hf|].
    cbv zeta. rewrite Hrun, report_cases. cbn [fst]. split.
    + intros Hr. now rewrite Hr.
    + intros m Hr Hm. now rewrite Hr, Hm.
Qed.

(** C7: a command list with a name outside the allow-list makes the
    module fail before any call on the utility object, with a message
    that holds every offending name of the list and the allowed set. *)
Theorem invalid_commands_fail_first (command_list : list string) (w : W) :
  (exists cmd, In cmd command_list /\ ~ allowed cmd) ->
  exists offending,
    run rf_utils Manager command_list attrs w
    = (Stop (FailJson
               (InvalidCommands offending
                  ["SetTimeZone"; "SetDNSserver"; "SetDomainName";
                   "SetNTPServers"; "SetWINSReg"])),
       {| world := w; trace := [] |})
    /\ (forall cmd, In cmd offending
                    <-> In cmd command_list /\ ~ allowed cmd).
Proof.
  intros [bad [Hin Hbad]].
  exists (filter (fun c => negb (mem c (CATEGORY_COMMANDS_ALL Manager)))
            command_list).
  split; [|intros cmd; apply offending_iff].
  unfold run, main. cbv zeta.
  assert (Hne : nonempty
                  (filter (fun c => negb (mem c (CATEGORY_COMMANDS_ALL Manager)))
                     command_list) = true).
  { assert (H : In bad (filter (fun c => negb (mem c (CATEGORY_COMMANDS_ALL Manager)))
                          command_list))
      by (apply offending_iff; split; assumption).
    destruct (filter _ command_list); [destruct H | reflexivity]. }
  erewrite step_stop; [reflexivity|].
  rewrite Hne. reflexivity.
Qed.

(** C9: with valid commands and the manager resource found, what the
    module reports is the report of the result of the last operation of
    the list: success with that result's [changed] and [msg] when its
    [ret] is true, failure with its [msg] when its [ret] is false. *)
Theorem last_result_is_reported (front : list string) (last : string)
    (w : W) :
  Forall allowed (front ++ [last]) ->
  ret (fst (_find_managers_resource rf_utils w)) = Some true ->
  exists (before : result) (st1 : state W) (f : routine W),
    run_commands rf_utils attrs front empty_result
      {| world := snd (_find_managers_resource rf_utils w);
         trace := [Located] |}
    = (Ok before, st1)
    /\ get last (dispatch rf_utils) = Some f
    /\ let r := fst (f attrs (world st1)) in
       let out := fst (run rf_utils Manager (front ++ [last]) attrs w) in
       (ret r = Some true ->
        out = Stop (ExitJson (changed r) (to_native (msg r))))
       /\ (forall m, ret r = Some false -> msg r = Some m ->
                     out = Stop (FailJson (Native m))).
Proof.
  intros Hvalid Hret.
  assert (Hfront : Forall allowed front /\ allowed last).
  { apply Forall_app in Hvalid. destruct Hvalid as [H1 H2].
    split; [exact H1 | now inversion H2]. }
  destruct Hfront as [Hfront Hlast].
  destruct (run_commands_trace front Hfront empty_result
              {| world := snd (_find_managers_resource rf_utils w);
                 trace := [Located] |}) as [before [w1 E]].
  destruct (dispatch_allowed last Hlast) as [f Hf].
  cbn [trace] in E.
  exists before, {| world := w1; trace := [Located] ++ map Ran front |}, f.
  split; [exact E|]. split; [exact Hf|].
  intros r out.
  assert (Hout : out = fst (report r
                              {| world := snd (f attrs w1);
                                 trace := ([Located] ++ map Ran front)
                                          ++ [Ran last] |})).
  { subst out r.
    rewrite (main_valid (front ++ [last]) w
               (snd (_find_managers_resource rf_utils w))
               (fst (_find_managers_resource rf_utils w)) Hvalid
               (surjective_pairing _) Hret).
    unfold bind at 1. rewrite run_commands_snoc.
    unfold bind at 1. rewrite E. cbn [run_commands]. rewrite Hf.
    unfold bind at 1. unfold call at 1. cbn [world trace].
    destruct (f attrs w1) as [r w2]. reflexivity. }
  rewrite Hout. clear Hout out.
  unfold report, bind, getitem, fail_json, halt, unit_.
  split.
  - intros Hr. rewrite Hr. reflexivity.
  - intros m Hr Hm. rewrite Hr, Hm. reflexivity.
Qed.

(** C10: with an empty command list and the manager resource found, no
    operation runs and the module ends in the [KeyError] of the lookup of
    ['ret'] in the empty result: neither [exit_json] nor [fail_json] is
    reached. *)
Theorem empty_command_list_raises (w : W) :
  ret (fst (_find_managers_resource rf_utils w)) = Some true ->
  run rf_utils Manager [] attrs w
  = (Stop (Raise (KeyError "ret")),
     {| world := snd (_find_managers_resource rf_utils w);
        trace := [Located] |}).
Proof.
  intros Hret.
  rewrite (main_valid [] w
             (snd (_find_managers_resource rf_utils w))
             (fst (_find_managers_resource rf_utils w)) (Forall_nil _)
             (surjective_pairing _) Hret).
  reflexivity.
Qed.

End Dispatcher.

Lemma every_command_runs_witness :
  trace (snd (run time_zone_fails Manager
                ["SetTimeZone"; "SetDNSserver"; "SetNTPServers"]
                demo_attributes 0))
  = [Located; Ran "SetTimeZone"; Ran "SetDNSserver"; Ran "SetNTPServers"]
  /\ fst (run time_zone_fails Manager
            ["SetTimeZone"; "SetDNSserver"; "SetNTPServers"]
            demo_attributes 0)
     = Stop (ExitJson (Some true) "NTP server modified").
Proof.
  destruct (every_command_runs nat time_zone_fails demo_attributes
              ["SetTimeZone"; "SetDNSserver"; "SetNTPServers"] 0)
    as [Htrace Hout].
  - repeat constructor; unfold allowed; simpl; tauto.
  - reflexivity.
  - split; [exact Htrace|].
    destruct (Hout ["SetTimeZone"; "SetDNSserver"] "SetNTPServers" eq_refl)
      as [before [st1 [f [E [Hf [Hok _]]]]]].
    injection Hf as <-. apply Hok. reflexivity.
Defined.

(** C3, as stated, fails: the time zone routine reports a failure, the
    DNS routine listed after it is executed all the same, and the module
    reports the success of the DNS routine. *)
Lemma failing_operation_does_not_abort :
  ret (fst (set_time_zone time_zone_fails demo_attributes 1)) = Some false
  /\ run time_zone_fails Manager ["SetTimeZone"; "SetDNSserver"]
       demo_attributes 0
     = (Stop (ExitJson (Some true) "DNS server modified"),
        {| world := 3;
           trace := [Located; Ran "SetTimeZone"; Ran "SetDNSserver"] |}).
Proof. split; reflexivity. Qed.

Lemma invalid_commands_fail_first_witness :
  exists offending,
    run time_zone_fails Manager ["SetTimeZone"; "Bogus"] demo_attributes 0
    = (Stop (FailJson
               (InvalidCommands offending
                  ["SetTimeZone"; "SetDNSserver"; "SetDomainName";
                   "SetNTPServers"; "SetWINSReg"])),
       {| world := 0; trace := [] |})
    /\ (forall cmd, In cmd offending
                    <-> In cmd ["SetTimeZone"; "Bogus"] /\ ~ allowed cmd).
Proof.
  apply (invalid_commands_fail_first nat time_zone_fails demo_attributes
           ["SetTimeZone"; "Bogus"] 0).
  exists "Bogus". split; [simpl; tauto|].
  unfold allowed. simpl. intros H.
  repeat (destruct H as [H|H]; [discriminate|]). exact H.
Defined.

Lemma last_result_is_reported_witness :
  fst (run time_zone_fails Manager ["SetDNSserver"; "SetTimeZone"]
         demo_attributes 0)
  = Stop (FailJson (Native "Time zone not found")).
Proof.
  destruct (last_result_is_reported nat time_zone_fails demo_attributes
              ["SetDNSserver"] "SetTimeZone" 0)
    as [before [st1 [f [E [Hf [_ H]]]]]].
  - repeat constructor; unfold allowed; simpl; tauto.
  - reflexivity.
  - injection Hf as <-. apply H; reflexivity.
Defined.

Lemma empty_command_list_raises_witness :
  run time_zone_fails Manager [] demo_attributes 0
  = (Stop (Raise (KeyError "ret")), {| world := 1; trace := [Located] |}).
Proof.
  apply (empty_command_list_raises nat time_zone_fails demo_attributes 0).
  reflexivity.
Defined.

End DispatcherProofs.

(** ** More on the attribute validator *)

Module ValidatorExtras.
Import Py SetServiceBiosAttributes DictFacts ValidatorProofs.
Local Open Scope list_scope.

(** X1: the loop of the validator computes the design's two mappings: it
    leaves in [attrs_to_patch] the requested items whose name is known and
    whose value differs, and in [attrs_bad] the requested items whose name
    is unknown, both in the order of the request and with the requested
    values. *)
Theorem scan_refines_design (service_bios : json) (current : dict json)
    (attributes : dict value) :
  json_getitem service_bios "Attributes" = inr (JObj current) ->
  wf attributes ->
  scan service_bios attributes
  = inr (diff_payload current attributes, bad_attributes current attributes).
Proof. intros Hcur Hwf. now apply scan_computes. Qed.

Lemma scan_refines_design_witness :
  scan service_doc two_unknown
  = inr ([("TimeZone", VStr "Chennai")],
         [("Bogus", VStr "x"); ("Other", VInt 1)]).
Proof.
  refine (scan_refines_design service_doc
            [("ProcTurbo", JVal (VStr "Enabled"));
             ("TimeZone", JVal (VStr "UTC"))] two_unknown _ _).
  - reflexivity.
  - apply wfb_wf. reflexivity.
Defined.

(** X2: the validator returns to its caller, so that the write is made,
    if and only if every requested name is known and some requested value
    differs from the current one. *)
Theorem validator_passes_iff (service_bios : json) (current : dict json)
    (attributes : dict value) :
  json_getitem service_bios "Attributes" = inr (JObj current) ->
  wf attributes ->
  validate_input_attributes service_bios attributes = Ok tt
  <-> (forall k, In k (keys attributes) -> contains k current = true)
      /\ (exists k v c, In (k, v) attributes /\ get k current = Some c
                        /\ json_eq_value c v = false).
Proof.
  intros Hcur Hwf. rewrite (validate_outcome _ _ _ Hcur Hwf).
  destruct (truthy (bad_attributes current attributes)) eqn:Hbad.
  - split; [discriminate|]. intros [Hknown _]. exfalso.
    apply truthy_filter in Hbad. destruct Hbad as [[k v] [Hin Hu]].
    unfold unknown in Hu. simpl in Hu. apply negb_true_iff in Hu.
    rewrite Hknown in Hu; [discriminate|].
    apply in_keys_iff. now exists v.
  - assert (Hknown : forall k, In k (keys attributes) ->
                               contains k current = true).
    { intros k Hk. destruct (contains k current) eqn:Hc; [reflexivity|].
      assert (H : In k (keys (bad_attributes current attributes)))
        by (apply unknown_key_iff; split; assumption).
      apply truthy_false in Hbad. rewrite Hbad in H. destruct H. }
    destruct (truthy (diff_payload current attributes)) eqn:Hdiff; simpl.
    + split; [|reflexivity]. intros _. split; [exact Hknown|].
      apply truthy_filter in Hdiff. destruct Hdiff as [[k v] [Hin Hd]].
      unfold differs in Hd. simpl in Hd.
      destruct (get k current) as [c|] eqn:Hc; [|discriminate].
      exists k, v, c. apply negb_true_iff in Hd. auto.
    + split; [discriminate|]. intros [_ [k [v [c [Hin [Hc Hne]]]]]].
      exfalso. apply not_true_iff_false in Hdiff. apply Hdiff.
      apply truthy_filter. exists (k, v). split; [exact Hin|].
      unfold differs. simpl. now rewrite Hc, Hne.
Qed.

Lemma validator_passes_iff_witness :
  validate_input_attributes service_doc one_changed = Ok tt
  <-> (forall k, In k (keys one_changed) ->
                 contains k [("ProcTurbo", JVal (VStr "Enabled"));
                             ("TimeZone", JVal (VStr "UTC"))] = true)
      /\ (exists k v c,
             In (k, v) one_changed
             /\ get k [("ProcTurbo", JVal (VStr "Enabled"));
                       ("TimeZone", JVal (VStr "UTC"))] = Some c
             /\ json_eq_value c v = false).
Proof.
  apply (validator_passes_iff service_doc).
  - reflexivity.
  - apply wfb_wf. reflexivity.
Defined.

(** X3: the validator stops the module with [changed=False] and the
    already-set message if and only if every requested name is known and
    holds the requested value; an empty request is such a request. *)
Theorem validator_already_set_iff (service_bios : json)
    (current : dict json) (attributes : dict value) :
  json_getitem service_bios "Attributes" = inr (JObj current) ->
  wf attributes ->
  validate_input_attributes service_bios attributes
  = Stop (ExitJson false (Text "Service BIOS attributes already set"))
  <-> (forall k v, In (k, v) attributes ->
                   exists c, get k current = Some c
                             /\ json_eq_value c v = true).
Proof.
  intros Hcur Hwf. rewrite (validate_outcome _ _ _ Hcur Hwf).
  destruct (truthy (bad_attributes current attributes)) eqn:Hbad.
  - split; [discriminate|]. intros Hsame. exfalso.
    apply truthy_filter in Hbad. destruct Hbad as [[k v] [Hin Hu]].
    destruct (Hsame k v Hin) as [c [Hc _]].
    unfold unknown, contains in Hu. simpl in Hu. now rewrite Hc in Hu.
  - destruct (truthy (diff_payload current attributes)) eqn:Hdiff; simpl.
    + split; [discriminate|]. intros Hsame. exfalso.
      apply truthy_filter in Hdiff. destruct Hdiff as [[k v] [Hin Hd]].
      destruct (Hsame k v Hin) as [c [Hc Heq]].
      unfold differs in Hd. simpl in Hd. rewrite Hc, Heq in Hd.
      discriminate.
    + split; [|reflexivity]. intros _ k v Hin.
      destruct (get k current) as [c|] eqn:Hc.
      * exists c. split; [reflexivity|].
        destruct (json_eq_value c v) eqn:Heq; [reflexivity|]. exfalso.
        apply not_true_iff_false in Hdiff. apply Hdiff.
        apply truthy_filter. exists (k, v). split; [exact Hin|].
        unfold differs. simpl. now rewrite Hc, Heq.
      * exfalso. apply not_true_iff_false in Hbad. apply Hbad.
        apply truthy_filter. exists (k, v). split; [exact Hin|].
        unfold unknown, contains. simpl. now rewrite Hc.
Qed.

Lemma validator_already_set_iff_witness :
  validate_input_attributes service_doc none_changed
  = Stop (ExitJson false (Text "Service BIOS attributes already set"))
  <-> (forall k v, In (k, v) none_changed ->
                   exists c,
                     get k [("ProcTurbo", JVal (VStr "Enabled"));
                            ("TimeZone", JVal (VStr "UTC"))] = Some c
                     /\ json_eq_value c v = true).
Proof.
  apply (validator_already_set_iff service_doc).
  - reflexivity.
  - apply wfb_wf. reflexivity.
Defined.

(** X4: a service document without the key ['Attributes'] is looked up
    only when there is a requested attribute to check: a non-empty request
    ends in the [KeyError] of that lookup, an empty request in the
    already-set exit. *)
Theorem missing_attributes_key (fields : dict json) :
  get "Attributes" fields = None ->
  validate_input_attributes (JObj fields) []
  = Stop (ExitJson false (Text "Service BIOS attributes already set"))
  /\ (forall item rest,
         validate_input_attributes (JObj fields) (item :: rest)
         = Stop (Raise (KeyError "Attributes"))).
Proof.
  intros Hnone. split; [reflexivity|].
  intros [k v] rest. unfold validate_input_attributes, scan.
  cbn [scan_loop scan_step json_getitem]. now rewrite Hnone.
Qed.

Lemma missing_attributes_key_witness :
  validate_input_attributes system_doc_without_bios []
  = Stop (ExitJson false (Text "Service BIOS attributes already set"))
  /\ (forall item rest,
         validate_input_attributes system_doc_without_bios (item :: rest)
         = Stop (Raise (KeyError "Attributes"))).
Proof.
  apply (missing_attributes_key [("Id", JVal (VStr "1"))]). reflexivity.
Defined.

End ValidatorExtras.

(** ** More on the flow of [set_service_bios_attributes.py] *)

Module FlowExtras.
Import Py SetServiceBiosAttributes DictFacts ValidatorProofs FlowProofs.
Local Open Scope list_scope.
Local Open Scope Z_scope.

(** The validator stops with a Python error, with the invalid-attribute
    failure or with the already-set exit, and with nothing else. *)
Lemma validator_stops (service_bios : json) (attributes : dict value)
    (x : stop) :
  validate_input_attributes service_bios attributes = Stop x ->
  (exists e, x = Raise e)
  \/ (exists attrs_bad, x = FailJson (IncorrectAttributes attrs_bad))
  \/ x = ExitJson false (Text "Service BIOS attributes already set").
Proof.
  unfold validate_input_attributes.
  destruct (scan service_bios attributes) as [e|[p b]].
  - intros E. injection E as <-. left. now exists e.
  - destruct (truthy b).
    + intros E. injection E as <-. right. left. now exists b.
    + destruct (negb (truthy p)); [|discriminate].
      intros E. injection E as <-. right. right. reflexivity.
Qed.

(** Case analysis over every branch of a run of the module. *)
Ltac unfold_run :=
  unfold run, main, set_service_bios_attributes, get_service_bios_attributes,
    bind, when, logout, log, get_request, patch_request, loads, lift, lift_py,
    error_msg, fail_json, halt, ret.

Ltac split_run :=
  repeat (cbn [fst snd world trace negb app];
          match goal with
          | |- context [match ?x with _ => _ end] =>
              lazymatch x with
              | context [match _ with _ => _ end] => fail
              | _ => destruct x eqn:?
              end
          end);
  cbn [fst snd world trace negb app].

Ltac validator_case :=
  match goal with
  | H : validate_input_attributes _ _ = Stop ?x |- _ =>
      destruct (validator_stops _ _ _ H) as [[? ->]|[[? ->]| ->]]
  end.






Section Runs.
Variable W : Type.
Variable client_get : string -> W -> response * W.
Variable client_patch : string -> patch_body -> W -> response * W.
Variable json_loads : string -> option json.

(** X5: whatever the controller answers, a write that the module makes
    carries the whole request as its body, comes right after a read of the
    URI that it is sent to, and is the only write of the run. *)
Theorem writes_carry_whole_request (HAS_REDFISH : bool)
    (service_attributes : dict value) (w : W) (uri : string)
    (body : patch_body) :
  In (Patch uri body)
     (trace (snd (run client_get client_patch json_loads HAS_REDFISH
                    service_attributes w))) ->
  body = {| Attributes := service_attributes |}
  /\ exists before after,
       trace (snd (run client_get client_patch json_loads HAS_REDFISH
                     service_attributes w))
       = before ++ Get uri :: Patch uri body :: after
       /\ reads_only before /\ reads_only after.
Proof.
  unfold_run. split_run.
  all: intros Hin; simpl in Hin.
  all: repeat (destruct Hin as [Hin|Hin]; [discriminate|]).
  all: try contradiction.
  all: destruct Hin as [Hin|Hin];
    [injection Hin as <- <-
    |repeat (destruct Hin as [Hin|Hin]; [discriminate|]); contradiction].
  all: split; [reflexivity|].
  all: first [ eexists [_; _], _; split; [reflexivity|]
             | eexists [_; _; _], _; split; [reflexivity|] ].
  all: split; repeat constructor.
Qed.

(** X6: whatever the controller answers, the session is closed if and
    only if the run ends in the report of a change: [logout] is reached on
    no other way out of the module. *)
Theorem logout_iff_change_reported (HAS_REDFISH : bool)
    (service_attributes : dict value) (w : W) :
  In Logout
     (trace (snd (run client_get client_patch json_loads HAS_REDFISH
                    service_attributes w)))
  <-> fst (run client_get client_patch json_loads HAS_REDFISH
             service_attributes w)
      = Stop (ExitJson true
                (Text "Service BIOS settings applied. System Reset required.")).
Proof.
  unfold_run. split_run.
  all: try validator_case.
  all: split; intros H; simpl in H.
  all: try discriminate.
  all: try reflexivity.
  all: try (repeat (destruct H as [H|H]; [discriminate|]); contradiction).
  all: simpl; tauto.
Qed.


(** X8: when the run ends in the report of no change, it is with the
    already-set message and no write has been made. *)
Theorem no_change_reported_without_write (HAS_REDFISH : bool)
    (service_attributes : dict value) (w : W) (m : message) :
  fst (run client_get client_patch json_loads HAS_REDFISH
         service_attributes w)
  = Stop (ExitJson false m) ->
  m = Text "Service BIOS attributes already set"
  /\ forall uri body,
       ~ In (Patch uri body)
            (trace (snd (run client_get client_patch json_loads HAS_REDFISH
                           service_attributes w))).
Proof.
  unfold_run. split_run.
  all: try validator_case.
  all: intros H; try discriminate.
  all: injection H as <-; split; [reflexivity|].
  all: intros uri body Hin; simpl in Hin.
  all: repeat (destruct Hin as [Hin|Hin]; [discriminate|]); contradiction.
Qed.


(** *** The steps of the flow, one at a time *)

Lemma flow_bind_bind_ok {A B C} (m : M W A) (f : A -> M W B)
    (g : B -> M W C) (s s' : state W) (a : A) :
  m s = (Ok a, s') -> bind (bind m f) g s = bind (f a) g s'.
Proof. intros H. unfold bind. now rewrite H. Qed.

Lemma flow_bind_bind_stop {A B C} (m : M W A) (f : A -> M W B)
    (g : B -> M W C) (s s' : state W) x :
  m s = (Stop x, s') -> bind (bind m f) g s = (Stop x, s').
Proof. intros H. unfold bind. now rewrite H. Qed.

(** X9: when the read of the system resource is answered with a status
    other than 200, the module fails with the method, URI, status and body
    of that read, and makes no other request. *)
Theorem system_read_failure (service_attributes : dict value) (w w1 : W)
    (r0 : response) :
  client_get "/redfish/v1/systems/1/" w = (r0, w1) ->
  status r0 <> 200 ->
  run client_get client_patch json_loads true service_attributes w
  = (Stop (FailJson (RequestFailed "GET" "/redfish/v1/systems/1/"
                       (status r0) (text r0))),
     {| world := w1; trace := [Login; Get "/redfish/v1/systems/1/"] |}).
Proof.
  intros Hget Hne. apply Z.eqb_neq in Hne.
  unfold run, main.
  erewrite bind_ok by reflexivity.
  erewrite bind_ok by reflexivity.
  erewrite bind_stop; [reflexivity|].
  unfold set_service_bios_attributes. cbv zeta.
  erewrite bind_ok by (apply get_request_eq; exact Hget).
  erewrite bind_stop; [reflexivity|].
  rewrite Hne. reflexivity.
Qed.

(** X10: when the system document is an object without the key ['Bios'],
    the module fails with the URI and the document, and makes no other
    request. *)
Theorem bios_key_missing (service_attributes : dict value) (w w1 : W)
    (r0 : response) (server_details : dict json) :
  client_get "/redfish/v1/systems/1/" w = (r0, w1) ->
  status r0 = 200 ->
  json_loads (text r0) = Some (JObj server_details) ->
  get "Bios" server_details = None ->
  run client_get client_patch json_loads true service_attributes w
  = (Stop (FailJson (BiosKeyMissing "/redfish/v1/systems/1/"
                       (JObj server_details))),
     {| world := w1; trace := [Login; Get "/redfish/v1/systems/1/"] |}).
Proof.
  intros Hget H200 Hloads Hbios.
  unfold run, main.
  erewrite bind_ok by reflexivity.
  erewrite bind_ok by reflexivity.
  erewrite bind_stop; [reflexivity|].
  unfold set_service_bios_attributes. cbv zeta.
  erewrite bind_ok by (apply get_request_eq; exact Hget).
  erewrite bind_ok by (rewrite H200; reflexivity).
  erewrite bind_ok by (unfold loads; rewrite Hloads; reflexivity).
  erewrite bind_ok
    by (unfold lift_py, json_in, contains; rewrite Hbios; reflexivity).
  erewrite bind_stop; reflexivity.
Qed.

(** X11: only the key ['Bios'] is checked: when the object under it has
    no ['@odata.id'], the module ends in the [KeyError] of that lookup,
    not in a failure report, and makes no other request. *)
Theorem bios_link_missing (service_attributes : dict value) (w w1 : W)
    (r0 : response) (server_details bios : dict json) :
  client_get "/redfish/v1/systems/1/" w = (r0, w1) ->
  status r0 = 200 ->
  json_loads (text r0) = Some (JObj server_details) ->
  get "Bios" server_details = Some (JObj bios) ->
  get "@odata.id" bios = None ->
  run client_get client_patch json_loads true service_attributes w
  = (Stop (Raise (KeyError "@odata.id")),
     {| world := w1; trace := [Login; Get "/redfish/v1/systems/1/"] |}).
Proof.
  intros Hget H200 Hloads Hbios Hid.
  unfold run, main.
  erewrite bind_ok by reflexivity.
  erewrite bind_ok by reflexivity.
  erewrite bind_stop; [reflexivity|].
  unfold set_service_bios_attributes. cbv zeta.
  erewrite bind_ok by (apply get_request_eq; exact Hget).
  erewrite bind_ok by (rewrite H200; reflexivity).
  erewrite bind_ok by (unfold loads; rewrite Hloads; reflexivity).
  erewrite bind_ok
    by (unfold lift_py, json_in, contains; rewrite Hbios; reflexivity).
  erewrite bind_ok by reflexivity.
  erewrite bind_ok
    by (unfold lift_py, json_getitem; rewrite Hbios; reflexivity).
  erewrite bind_stop; [reflexivity|].
  unfold lift_py, json_getitem. rewrite Hid. reflexivity.
Qed.

(** X12: the Attribute Reader returns the document together with the URI
    that answered: the primary path when it answers 200, the OEM path when
    the primary path answers 404 and the OEM path 200. *)
Theorem reader_returns_answering_uri (b : string) (st : state W)
    (j : json) :
  let primary := (b ++ "service/settings/")%string in
  let fallback := (b ++ "oem/hpe/service/settings/")%string in
  let r1 := fst (client_get primary (world st)) in
  let w1 := snd (client_get primary (world st)) in
  let r2 := fst (client_get fallback w1) in
  let w2 := snd (client_get fallback w1) in
  (status r1 = 200 -> json_loads (text r1) = Some j ->
   get_service_bios_attributes client_get json_loads (JVal (VStr b)) st
   = (Ok (primary, j),
      {| world := w1; trace := trace st ++ [Get primary] |}))
  /\ (status r1 = 404 -> status r2 = 200 -> json_loads (text r2) = Some j ->
      get_service_bios_attributes client_get json_loads (JVal (VStr b)) st
      = (Ok (fallback, j),
         {| world := w2; trace := trace st ++ [Get primary; Get fallback] |})).
Proof.
  intros primary fallback r1 w1 r2 w2.
  rewrite (reader_cases W client_get json_loads b st r1 w1)
    by (subst r1 w1; apply surjective_pairing).
  fold primary fallback.
  split.
  - intros H200 Hj. rewrite H200. cbn [Z.eqb Pos.eqb].
    unfold finish. rewrite H200, Hj. reflexivity.
  - intros H404 H200 Hj. rewrite H404. cbn [Z.eqb Pos.eqb].
    assert (E : client_get fallback w1 = (r2, w2))
      by (subst r2 w2; apply surjective_pairing).
    rewrite E. unfold finish. rewrite H200, Hj. reflexivity.
Qed.

(** X13: the apply step.  When the system resource is located, the
    Attribute Reader has returned and the validator lets the request
    through, one PATCH with the whole request goes to the URI that the
    reader returned; on status 200 the session is closed and a change is
    reported with the reset notice, on any other status the module fails
    with the status, the body and the URI, and the session stays open. *)
Theorem apply_step (service_attributes : dict value)
    (w w1 w3 : W) (r0 r : response) (server_details : dict json)
    (bios bios_uri service_bios : json) (service_uri : string)
    (st2 : state W) :
  client_get "/redfish/v1/systems/1/" w = (r0, w1) ->
  status r0 = 200 ->
  json_loads (text r0) = Some (JObj server_details) ->
  get "Bios" server_details = Some bios ->
  json_getitem bios "@odata.id" = inr bios_uri ->
  get_service_bios_attributes client_get json_loads bios_uri
    {| world := w1; trace := [Login; Get "/redfish/v1/systems/1/"] |}
  = (Ok (service_uri, service_bios), st2) ->
  validate_input_attributes service_bios service_attributes = Ok tt ->
  client_patch service_uri {| Attributes := service_attributes |} (world st2)
  = (r, w3) ->
  run client_get client_patch json_loads true service_attributes w
  = if status r =? 200 then
      (Stop (ExitJson true
               (Text "Service BIOS settings applied. System Reset required.")),
       {| world := w3;
          trace := trace st2
                   ++ [Patch service_uri
                         {| Attributes := service_attributes |};
                       Logout] |})
    else
      (Stop (FailJson (ApplyFailed (status r) (text r) service_uri)),
       {| world := w3;
          trace := trace st2
                   ++ [Patch service_uri
                         {| Attributes := service_attributes |}] |}).
Proof.
  intros Hget H200 Hloads Hbios Hid Hreader Hvalid Hpatch.
  unfold run, main.
  erewrite bind_ok by reflexivity.
  erewrite bind_ok by reflexivity.
  unfold set_service_bios_attributes. cbv zeta.
  erewrite flow_bind_bind_ok by (apply get_request_eq; exact Hget).
  erewrite flow_bind_bind_ok by (rewrite H200; reflexivity).
  erewrite flow_bind_bind_ok by (unfold loads; rewrite Hloads; reflexivity).
  erewrite flow_bind_bind_ok
    by (unfold lift_py, json_in, contains; rewrite Hbios; reflexivity).
  erewrite flow_bind_bind_ok by reflexivity.
  erewrite flow_bind_bind_ok
    by (unfold lift_py, json_getitem; rewrite Hbios; reflexivity).
  erewrite flow_bind_bind_ok by (unfold lift_py; rewrite Hid; reflexivity).
  erewrite flow_bind_bind_ok by exact Hreader.
  cbv iota beta.
  erewrite flow_bind_bind_ok by (unfold lift; rewrite Hvalid; reflexivity).
  erewrite flow_bind_bind_ok
    by (unfold patch_request; rewrite Hpatch; reflexivity).
  destruct (status r =? 200) eqn:Hs; cbn [negb].
  - unfold when, bind, logout, log, halt, ret. cbn [world trace].
    now rewrite <- app_assoc.
  - unfold when, bind, fail_json, halt. reflexivity.
Qed.

End Runs.

Lemma writes_carry_whole_request_witness :
  {| Attributes := one_changed |} = {| Attributes := one_changed |}
  /\ exists before after,
       trace (snd (play healthy one_changed))
       = before
         ++ Get "/redfish/v1/systems/1/bios/service/settings/"
         :: Patch "/redfish/v1/systems/1/bios/service/settings/"
              {| Attributes := one_changed |}
         :: after
       /\ reads_only before /\ reads_only after.
Proof.
  apply (writes_carry_whole_request unit (scripted_get healthy)
           (scripted_patch healthy) (scripted_loads healthy) true one_changed
           tt "/redfish/v1/systems/1/bios/service/settings/"
           {| Attributes := one_changed |}).
  vm_compute. tauto.
Defined.


Lemma no_change_reported_without_write_witness :
  Text "Service BIOS attributes already set"
  = Text "Service BIOS attributes already set"
  /\ forall uri body,
       ~ In (Patch uri body) (trace (snd (play healthy none_changed))).
Proof.
  apply (no_change_reported_without_write unit (scripted_get healthy)
           (scripted_patch healthy) (scripted_loads healthy) true
           none_changed tt (Text "Service BIOS attributes already set")).
  reflexivity.
Defined.

Lemma system_read_failure_witness :
  play system_down one_changed
  = (Stop (FailJson (RequestFailed "GET" "/redfish/v1/systems/1/" 500 "error")),
     {| world := tt; trace := [Login; Get "/redfish/v1/systems/1/"] |}).
Proof.
  apply (system_read_failure unit (scripted_get system_down)
           (scripted_patch system_down) (scripted_loads system_down)
           one_changed tt tt server_error).
  - reflexivity.
  - discriminate.
Defined.

Lemma bios_key_missing_witness :
  play no_bios one_changed
  = (Stop (FailJson (BiosKeyMissing "/redfish/v1/systems/1/"
                       system_doc_without_bios)),
     {| world := tt; trace := [Login; Get "/redfish/v1/systems/1/"] |}).
Proof.
  apply (bios_key_missing unit (scripted_get no_bios)
           (scripted_patch no_bios) (scripted_loads no_bios)
           one_changed tt tt (ok "system without Bios")
           [("Id", JVal (VStr "1"))]); reflexivity.
Defined.

Lemma bios_link_missing_witness :
  play no_link one_changed
  = (Stop (Raise (KeyError "@odata.id")),
     {| world := tt; trace := [Login; Get "/redfish/v1/systems/1/"] |}).
Proof.
  apply (bios_link_missing unit (scripted_get no_link)
           (scripted_patch no_link) (scripted_loads no_link)
           one_changed tt tt (ok "system without link")
           [("Bios", JObj [("Id", JVal (VStr "bios"))])]
           [("Id", JVal (VStr "bios"))]); reflexivity.
Defined.

Lemma reader_returns_answering_uri_witness :
  get_service_bios_attributes (scripted_get oem_only) (scripted_loads oem_only)
    (JVal (VStr "/redfish/v1/systems/1/bios/"))
    {| world := tt; trace := [Login; Get "/redfish/v1/systems/1/"] |}
  = (Ok ("/redfish/v1/systems/1/bios/oem/hpe/service/settings/", service_doc),
     {| world := tt;
        trace := [Login; Get "/redfish/v1/systems/1/";
                  Get "/redfish/v1/systems/1/bios/service/settings/";
                  Get "/redfish/v1/systems/1/bios/oem/hpe/service/settings/"] |}).
Proof.
  apply (proj2 (reader_returns_answering_uri unit (scripted_get oem_only)
                  (scripted_loads oem_only) "/redfish/v1/systems/1/bios/"
                  {| world := tt;
                     trace := [Login; Get "/redfish/v1/systems/1/"] |}
                  service_doc)); reflexivity.
Defined.

Lemma apply_step_witness :
  play patch_refused one_changed
  = (Stop (FailJson (ApplyFailed 500 "error"
                       "/redfish/v1/systems/1/bios/service/settings/")),
     {| world := tt;
        trace := [Login; Get "/redfish/v1/systems/1/";
                  Get "/redfish/v1/systems/1/bios/service/settings/";
                  Patch "/redfish/v1/systems/1/bios/service/settings/"
                    {| Attributes := one_changed |}] |}).
Proof.
  apply (apply_step unit (scripted_get patch_refused)
           (scripted_patch patch_refused) (scripted_loads patch_refused)
           one_changed tt tt tt (ok "system") server_error
           [("Bios", JObj [("@odata.id",
                            JVal (VStr "/redfish/v1/systems/1/bios/"))])]
           (JObj [("@odata.id", JVal (VStr "/redfish/v1/systems/1/bios/"))])
           (JVal (VStr "/redfish/v1/systems/1/bios/")) service_doc
           "/redfish/v1/systems/1/bios/service/settings/"
           {| world := tt;
              trace := [Login; Get "/redfish/v1/systems/1/";
                        Get "/redfish/v1/systems/1/bios/service/settings/"] |});
    reflexivity.
Defined.

End FlowExtras.

(** ** More on the command dispatcher of [ilo_redfish_config.py] *)

Module DispatcherExtras.
Import Py IloRedfishConfig DispatcherProofs.
Local Open Scope list_scope.

Lemma forallb_false_witness {A} (f : A -> bool) (l : list A) :
  forallb f l = false -> exists x, In x l /\ f x = false.
Proof.
  induction l as [|a l IH]; simpl; [discriminate|].
  destruct (f a) eqn:Ha; simpl.
  - intros H. destruct (IH H) as [x [Hin Hx]]. exists x. auto.
  - intros _. exists a. auto.
Qed.

(** A command list is valid or holds a name outside the allow-list. *)
Lemma valid_or_offending (command_list : list string) :
  Forall allowed command_list
  \/ exists cmd, In cmd command_list /\ ~ allowed cmd.
Proof.
  destruct (forallb (fun c => mem c (CATEGORY_COMMANDS_ALL Manager))
              command_list) eqn:H.
  - left. apply Forall_forall. intros c Hc.
    apply mem_iff. rewrite forallb_forall in H. now apply H.
  - right. apply forallb_false_witness in H. destruct H as [c [Hin Hc]].
    exists c. split; [exact Hin|]. intros Ha. apply mem_iff in Ha.
    unfold allowed in *. congruence.
Qed.

Section Dispatcher.
Variable W : Type.
Variable rf_utils : iLORedfishUtils W.
Variable attrs : mgr_attributes.

(** A run with valid commands, by the result of the resource locator. *)
Lemma valid_run_cases (command_list : list string) (w w1 : W)
    (resource : result) :
  Forall allowed command_list ->
  _find_managers_resource rf_utils w = (resource, w1) ->
  run rf_utils Manager command_list attrs w
  = match ret resource with
    | None =>
        (Stop (Raise (KeyError "ret")), {| world := w1; trace := [Located] |})
    | Some false =>
        match msg resource with
        | None =>
            (Stop (Raise (KeyError "msg")),
             {| world := w1; trace := [Located] |})
        | Some m =>
            (Stop (FailJson (Native m)),
             {| world := w1; trace := [Located] |})
        end
    | Some true =>
        bind (run_commands rf_utils attrs command_list empty_result)
          report {| world := w1; trace := [Located] |}
    end.
Proof.
  intros Hvalid Hfind. unfold run, main. cbv zeta.
  rewrite (no_offending Manager command_list Hvalid).
  erewrite step_ok by reflexivity.
  erewrite bind_bind_ok by (apply call_eq; exact Hfind).
  destruct (ret resource) as [[|]|].
  - erewrite bind_bind_ok by reflexivity.
    erewrite bind_bind_ok by reflexivity.
    reflexivity.
  - erewrite bind_bind_ok by reflexivity.
    destruct (msg resource) as [m|]; reflexivity.
  - reflexivity.
Qed.

(** X14: the allow-list and the dispatch table have the same names: a
    command that passes the check of the names is bound to a routine, and
    no routine is bound to any other name. *)
Theorem dispatch_keys_are_allow_list (cmd : string) :
  (exists f, get cmd (dispatch rf_utils) = Some f) <-> allowed cmd.
Proof.
  split; [|apply dispatch_allowed].
  unfold allowed, dispatch. cbn [get CATEGORY_COMMANDS_ALL].
  intros [f H].
  repeat match type of H with
         | (if String.eqb ?a ?b then _ else _) = _ =>
             destruct (String.eqb_spec a b) as [->|_];
             [simpl; tauto|]
         end.
  discriminate.
Qed.

(** X15: when the manager resource is not found, a valid command list
    runs no operation: the module fails with the message of the locator,
    or ends in a [KeyError] when the locator's result has no ['ret'], or
    reports not found and has no ['msg']. *)
Theorem location_failure_stops (command_list : list string) (w w1 : W)
    (resource : result) :
  Forall allowed command_list ->
  _find_managers_resource rf_utils w = (resource, w1) ->
  (forall m, ret resource = Some false -> msg resource = Some m ->
     run rf_utils Manager command_list attrs w
     = (Stop (FailJson (Native m)), {| world := w1; trace := [Located] |}))
  /\ (ret resource = Some false -> msg resource = None ->
      run rf_utils Manager command_list attrs w
      = (Stop (Raise (KeyError "msg")),
         {| world := w1; trace := [Located] |}))
  /\ (ret resource = None ->
      run rf_utils Manager command_list attrs w
      = (Stop (Raise (KeyError "ret")),
         {| world := w1; trace := [Located] |})).
Proof.
  intros Hvalid Hfind.
  rewrite (valid_run_cases command_list w w1 resource Hvalid Hfind).
  repeat split.
  - intros m Hr Hm. now rewrite Hr, Hm.
  - intros Hr Hm. now rewrite Hr, Hm.
  - intros Hr. now rewrite Hr.
Qed.

(** X16: a valid command list ends in a success report, in a failure
    report with a routine's or the locator's message, or in the [KeyError]
    of a lookup of ['ret'] or ['msg'] in a result; it never fails the
    check of the names and never misses a routine in the dispatch table. *)
Theorem valid_run_outcomes (command_list : list string) (w : W) :
  Forall allowed command_list ->
  let out := fst (run rf_utils Manager command_list attrs w) in
  (exists c m, out = Stop (ExitJson c m))
  \/ (exists m, out = Stop (FailJson (Native m)))
  \/ out = Stop (Raise (KeyError "ret"))
  \/ out = Stop (Raise (KeyError "msg")).
Proof.
  intros Hvalid out. subst out.
  rewrite (valid_run_cases command_list w
             (snd (_find_managers_resource rf_utils w))
             (fst (_find_managers_resource rf_utils w)) Hvalid
             (surjective_pairing _)).
  destruct (ret (fst (_find_managers_resource rf_utils w))) as [[|]|].
  - destruct (run_commands_trace W rf_utils attrs command_list Hvalid
                empty_result
                {| world := snd (_find_managers_resource rf_utils w);
                   trace := [Located] |}) as [r [w' E]].
    unfold bind. rewrite E, report_cases. cbn [fst].
    destruct (ret r) as [[|]|]; [left; eauto | | right; right; left; auto].
    destruct (msg r) as [m|]; [right; left; eauto | right; right; right; auto].
  - destruct (msg (fst (_find_managers_resource rf_utils w))) as [m|];
      cbn [fst]; [right; left; eauto | right; right; right; auto].
  - cbn [fst]. right; right; left; auto.
Qed.

(** X17: the module fails with the invalid-command message if and only
    if the command list holds a name outside the allow-list. *)
Theorem invalid_commands_iff (command_list : list string) (w : W) :
  (exists offending allowed_names,
      fst (run rf_utils Manager command_list attrs w)
      = Stop (FailJson (InvalidCommands offending allowed_names)))
  <-> (exists cmd, In cmd command_list /\ ~ allowed cmd).
Proof.
  split.
  - intros [offending [names H]].
    destruct (valid_or_offending command_list) as [Hvalid|Hbad];
      [|exact Hbad].
    exfalso.
    pose proof (valid_run_cases command_list w
                  (snd (_find_managers_resource rf_utils w))
                  (fst (_find_managers_resource rf_utils w)) Hvalid
                  (surjective_pairing _)) as E.
    rewrite E in H. clear E.
    destruct (ret (fst (_find_managers_resource rf_utils w))) as [[|]|].
    + destruct (run_commands_trace W rf_utils attrs command_list Hvalid
                  empty_result
                  {| world := snd (_find_managers_resource rf_utils w);
                     trace := [Located] |}) as [r [w' Er]].
      unfold bind in H. rewrite Er, report_cases in H. cbn [fst] in H.
      destruct (ret r) as [[|]|]; try discriminate.
      destruct (msg r); discriminate.
    + destruct (msg (fst (_find_managers_resource rf_utils w)));
        discriminate.
    + discriminate.
  - intros [bad [Hin Hbad]].
    assert (Hoff : In bad (filter (fun c => negb (mem c (CATEGORY_COMMANDS_ALL Manager)))
                             command_list))
      by (apply offending_iff; split; assumption).
    unfold run, main. cbv zeta.
    destruct (filter (fun c => negb (mem c (CATEGORY_COMMANDS_ALL Manager)))
                command_list) as [|o os] eqn:Ef; [destruct Hoff|].
    exists (o :: os), (CATEGORY_COMMANDS_ALL Manager).
    erewrite step_stop; reflexivity.
Qed.

(** X18: the loop over a list in two parts is the loop over the first
    part followed by the loop over the second, which starts from the
    controller state and the result that the first part leaves, and which
    is not run when the first part stops. *)
Theorem run_commands_app (first second : list string) (r0 : result)
    (st : state W) :
  run_commands rf_utils attrs (first ++ second) r0 st
  = bind (run_commands rf_utils attrs first r0)
      (fun r => run_commands rf_utils attrs second r) st.
Proof.
  revert r0 st. induction first as [|c first IH]; intros r0 st.
  - reflexivity.
  - simpl app. cbn [run_commands].
    destruct (get c (dispatch rf_utils)) as [f|]; [|reflexivity].
    unfold bind at 1 2 3. unfold call.
    destruct (f attrs (world st)) as [r w]. apply IH.
Qed.

(** X19: the result of the last operation is read without a check of its
    keys: without ['ret'] the module ends in a [KeyError]; with a false
    ['ret'] and no ['msg'] it ends in a [KeyError] as well; with a true
    ['ret'] and no ['msg'] it reports success with the message "None". *)
Theorem last_result_without_keys (front : list string) (last : string)
    (w : W) :
  Forall allowed (front ++ [last]) ->
  ret (fst (_find_managers_resource rf_utils w)) = Some true ->
  exists (before : result) (st1 : state W) (f : routine W),
    run_commands rf_utils attrs front empty_result
      {| world := snd (_find_managers_resource rf_utils w);
         trace := [Located] |}
    = (Ok before, st1)
    /\ get last (dispatch rf_utils) = Some f
    /\ let r := fst (f attrs (world st1)) in
       let out := fst (run rf_utils Manager (front ++ [last]) attrs w) in
       (ret r = None -> out = Stop (Raise (KeyError "ret")))
       /\ (ret r = Some false -> msg r = None ->
           out = Stop (Raise (KeyError "msg")))
       /\ (ret r = Some true -> msg r = None ->
           out = Stop (ExitJson (changed r) "None")).
Proof.
  intros Hvalid Hret.
  destruct (run_reports_last W rf_utils attrs front last w Hvalid Hret)
    as [before [st1 [f [E [Hf Hrun]]]]].
  exists before, st1, f. split; [exact E|]. split; [exact Hf|].
  cbv zeta. rewrite Hrun, report_cases. cbn [fst].
  repeat split.
  - intros Hr. now rewrite Hr.
  - intros Hr Hm. now rewrite Hr, Hm.
  - intros Hr Hm. now rewrite Hr, Hm.
Qed.

End Dispatcher.

Lemma location_failure_stops_witness :
  run manager_missing Manager ["SetTimeZone"; "SetDNSserver"]
    demo_attributes 0
  = (Stop (FailJson (Native "Key Managers not found")),
     {| world := 1; trace := [Located] |}).
Proof.
  refine (proj1 (location_failure_stops nat manager_missing demo_attributes
                   ["SetTimeZone"; "SetDNSserver"] 0 1
                   {| ret := Some false; changed := None;
                      msg := Some "Key Managers not found" |} _ _)
            "Key Managers not found" eq_refl eq_refl).
  - repeat constructor; unfold allowed; simpl; tauto.
  - reflexivity.
Defined.

Lemma valid_run_outcomes_witness :
  let out := fst (run time_zone_fails Manager ["SetTimeZone"]
                    demo_attributes 0) in
  (exists c m, out = Stop (ExitJson c m))
  \/ (exists m, out = Stop (FailJson (Native m)))
  \/ out = Stop (Raise (KeyError "ret"))
  \/ out = Stop (Raise (KeyError "msg")).
Proof.
  apply (valid_run_outcomes nat time_zone_fails demo_attributes
           ["SetTimeZone"] 0).
  repeat constructor; unfold allowed; simpl; tauto.
Defined.

Lemma last_result_without_keys_witness :
  fst (run dns_silent Manager ["SetTimeZone"; "SetDNSserver"]
         demo_attributes 0)
  = Stop (Raise (KeyError "ret")).
Proof.
  destruct (last_result_without_keys nat dns_silent demo_attributes
              ["SetTimeZone"] "SetDNSserver" 0)
    as [before [st1 [f [E [Hf [H _]]]]]].
  - repeat constructor; unfold allowed; simpl; tauto.
  - reflexivity.
  - injection Hf as <-. apply H. reflexivity.
Defined.

End DispatcherExtras.
